(** * Rotation scheduler and link signing of the gym-split mailer

    A shallow embedding of the scheduling and signing code of the
    repository:

    - [scripts/lib/plans.py]    (module [Plans]),
    - [scripts/lib/signing.py]  (module [Signing]),
    - [scripts/send_daily.py]   (module [SendDaily]),

    together with the parts of the Python standard library they call
    ([datetime.date], [urllib.parse.quote_plus], [hmac], [hashlib.sha256],
    [base64.urlsafe_b64encode]).

    Python [str] values are modelled as byte strings (their UTF-8 encoding),
    [int] as [Z], [dict] as [gmap], and the files under [schedules/] as a
    finite map from user names to schedule records. *)

From Stdlib Require Import ZArith Ascii Lia.
From Stdlib Require String.
From stdpp Require Import gmap strings list sorting pretty.

Local Open Scope Z_scope.

(** ** Exceptions and results

    The exceptions the code raises on files whose values have the types it
    expects.  A [TypeError] or [AttributeError] on a file of another shape
    (a [null] index, a record that is not an object) is not modelled. *)

Inductive exn : Type :=
  | ValueError
  | RuntimeError
  | FileNotFoundError
  | OverflowError
  | IndexError.

Inductive res (A : Type) : Type :=
  | Ok (a : A)
  | Raise (e : exn).

Arguments Ok {A} a.
Arguments Raise {A} e.

Definition res_bind {A B} (r : res A) (k : A → res B) : res B :=
  match r with
  | Ok a => k a
  | Raise e => Raise e
  end.

(** ** [datetime.date] *)

Module Calendar.

Record date : Type := mkdate { year : Z; month : Z; day : Z }.

Definition is_leap (y : Z) : bool :=
  (y mod 4 =? 0) && (negb (y mod 100 =? 0) || (y mod 400 =? 0)).

Definition days_in_month (y m : Z) : Z :=
  if m =? 2 then (if is_leap y then 29 else 28)
  else if (m =? 4) || (m =? 6) || (m =? 9) || (m =? 11) then 30
  else 31.

(** The range of [datetime.date]: 0001-01-01 to 9999-12-31. *)
Definition valid (d : date) : bool :=
  (1 <=? year d) && (year d <=? 9999) &&
  (1 <=? month d) && (month d <=? 12) &&
  (1 <=? day d) && (day d <=? days_in_month (year d) (month d)).

Definition digit (c : ascii) : option Z :=
  let n := Z.of_N (N_of_ascii c) in
  if (48 <=? n) && (n <=? 57) then Some (n - 48) else None.

Definition num2 (a b : ascii) : option Z :=
  match digit a, digit b with
  | Some x, Some y => Some (10 * x + y)
  | _, _ => None
  end.

Definition num4 (a b c d : ascii) : option Z :=
  match num2 a b, num2 c d with
  | Some x, Some y => Some (100 * x + y)
  | _, _ => None
  end.

(** [date.fromisoformat] on the extended format [YYYY-MM-DD], the one
    [date.isoformat] (and so [today_local_iso]) produces: where this
    function returns a date, every version of Python returns that date.
    Python 3.11 and later accept the basic format [YYYYMMDD] and ISO week
    dates as well; they are refused here, as they are by the earlier
    versions. *)
Definition fromisoformat (s : string) : res date :=
  match s with
  | String y1 (String y2 (String y3 (String y4 (String "-"
      (String m1 (String m2 (String "-"
      (String d1 (String d2 EmptyString))))))))) =>
      match num4 y1 y2 y3 y4, num2 m1 m2, num2 d1 d2 with
      | Some y, Some m, Some d =>
          let dt := mkdate y m d in
          if valid dt then Ok dt else Raise ValueError
      | _, _, _ => Raise ValueError
      end
  | _ => Raise ValueError
  end.

Definition digit_char (n : Z) : ascii :=
  ascii_of_N (Z.to_N (48 + n mod 10)).

Definition pad2 (n : Z) : string :=
  String (digit_char (n / 10)) (String (digit_char n) EmptyString).

Definition pad4 (n : Z) : string :=
  String (digit_char (n / 1000)) (String (digit_char (n / 100)) (pad2 n)).

(** [date.isoformat]: ["%04d-%02d-%02d"]. *)
Definition isoformat (d : date) : string :=
  pad4 (year d) +:+ "-" +:+ pad2 (month d) +:+ "-" +:+ pad2 (day d).

(** [d - timedelta(days=1)]; leaving the range of [date] is an
    [OverflowError]. *)
Definition sub_one_day (d : date) : res date :=
  if 1 <? day d then Ok (mkdate (year d) (month d) (day d - 1))
  else if 1 <? month d then
    Ok (mkdate (year d) (month d - 1) (days_in_month (year d) (month d - 1)))
  else if 1 <? year d then Ok (mkdate (year d - 1) 12 31)
  else Raise OverflowError.

Definition days_before_year (y : Z) : Z :=
  let p := y - 1 in p * 365 + p / 4 - p / 100 + p / 400.

Fixpoint days_before_month_aux (y : Z) (n : nat) : Z :=
  match n with
  | O => 0
  | S k => days_before_month_aux y k + days_in_month y (Z.of_nat n)
  end.

Definition days_before_month (y m : Z) : Z :=
  days_before_month_aux y (Z.to_nat (m - 1)).

(** [date.toordinal]: 0001-01-01 is day 1. *)
Definition toordinal (d : date) : Z :=
  days_before_year (year d) + days_before_month (year d) (month d) + day d.

(** [date.weekday]: Monday is 0. *)
Definition weekday (d : date) : Z := (toordinal d + 6) mod 7.

(** [date.strftime("%A")] in the C locale. *)
Definition strftime_A (d : date) : string :=
  match weekday d with
  | 0 => "Monday"
  | 1 => "Tuesday"
  | 2 => "Wednesday"
  | 3 => "Thursday"
  | 4 => "Friday"
  | 5 => "Saturday"
  | _ => "Sunday"
  end.

(** [(date.fromisoformat(today) - timedelta(days=1)).isoformat()] *)
Definition yesterday_iso (today : string) : res string :=
  res_bind (fromisoformat today) (λ d,
  res_bind (sub_one_day d) (λ y,
  Ok (isoformat y))).

End Calendar.

(** ** Strings as the code uses them *)

Module Str.

Definition code (c : ascii) : Z := Z.of_N (N_of_ascii c).

Definition chr (n : Z) : ascii := ascii_of_N (Z.to_N n).

Fixpoint bytes (s : string) : list Z :=
  match s with
  | EmptyString => []
  | String c r => code c :: bytes r
  end.

Fixpoint of_bytes (l : list Z) : string :=
  match l with
  | [] => EmptyString
  | b :: r => String (chr b) (of_bytes r)
  end.

Fixpoint map (f : ascii → ascii) (s : string) : string :=
  match s with
  | EmptyString => EmptyString
  | String c r => String (f c) (map f r)
  end.

Fixpoint mem (c : ascii) (s : string) : bool :=
  match s with
  | EmptyString => false
  | String d r => Ascii.eqb c d || mem c r
  end.

Fixpoint count (c : ascii) (s : string) : Z :=
  match s with
  | EmptyString => 0
  | String d r => (if Ascii.eqb c d then 1 else 0) + count c r
  end.

(** [str.isspace] on ASCII characters.  Blanks outside ASCII, which
    [str.strip] removes as well, are not modelled. *)
Definition isspace (c : ascii) : bool :=
  let n := code c in
  ((9 <=? n) && (n <=? 13)) || ((28 <=? n) && (n <=? 32)).

Definition isupper (c : ascii) : bool :=
  let n := code c in (65 <=? n) && (n <=? 90).

Definition islower (c : ascii) : bool :=
  let n := code c in (97 <=? n) && (n <=? 122).

Definition isdigit (c : ascii) : bool :=
  let n := code c in (48 <=? n) && (n <=? 57).

(** [str.isalnum] on ASCII characters. *)
Definition isalnum (c : ascii) : bool := isupper c || islower c || isdigit c.

Definition lower_char (c : ascii) : ascii :=
  if isupper c then chr (code c + 32) else c.

(** [str.lower] on ASCII letters; other characters are kept. *)
Definition lower (s : string) : string := map lower_char s.

Fixpoint lstrip (p : ascii → bool) (s : string) : string :=
  match s with
  | EmptyString => EmptyString
  | String c r => if p c then lstrip p r else s
  end.

Fixpoint rstrip (p : ascii → bool) (s : string) : string :=
  match s with
  | EmptyString => EmptyString
  | String c r =>
      match rstrip p r with
      | EmptyString => if p c then EmptyString else String c EmptyString
      | r' => String c r'
      end
  end.

(** [s.strip()] removes leading and trailing whitespace. *)
Definition strip (s : string) : string := rstrip isspace (lstrip isspace s).

(** [s.strip(chars)] for a one-character [chars]. *)
Definition strip_char (c : ascii) (s : string) : string :=
  rstrip (Ascii.eqb c) (lstrip (Ascii.eqb c) s).

(** [s.replace(a, b)] for one-character [a] and [b]. *)
Definition replace_char (a b : ascii) (s : string) : string :=
  map (λ c, if Ascii.eqb c a then b else c) s.

(** [s.replace("--", "-")]: non-overlapping occurrences, left to right. *)
Fixpoint replace_dashes (s : string) : string :=
  match s with
  | String "-" (String "-" r) => String "-" (replace_dashes r)
  | String c r => String c (replace_dashes r)
  | EmptyString => EmptyString
  end.

End Str.

(** ** [urllib.parse] *)

Module Urllib.

(** [_ALWAYS_SAFE]: letters, digits and [_.-~]. *)
Definition always_safe (c : ascii) : bool :=
  Str.isalnum c || Str.mem c "_.-~".

Definition hex_digit (n : Z) : ascii :=
  if n <? 10 then Str.chr (48 + n) else Str.chr (55 + n).

(** One byte of [quote_from_bytes]: kept when safe, otherwise ["%XX"]. *)
Definition quote_byte (safe : string) (c : ascii) : string :=
  if always_safe c || Str.mem c safe then String c EmptyString
  else String "%" (String (hex_digit (Str.code c / 16))
                  (String (hex_digit (Str.code c mod 16)) EmptyString)).

Fixpoint quote (s : string) (safe : string) : string :=
  match s with
  | EmptyString => EmptyString
  | String c r => quote_byte safe c +:+ quote r safe
  end.

(** [quote_plus(string, safe)]: like [quote], with spaces sent to [+]. *)
Definition quote_plus (s : string) (safe : string) : string :=
  if Str.mem " " s
  then Str.replace_char " " "+" (quote s (safe +:+ " "))
  else quote s safe.

End Urllib.

(** ** [hashlib.sha256], [hmac] and [base64] *)

Module Sha256.

Definition mask : Z := 0xffffffff.

Definition add (a b : Z) : Z := Z.land (a + b) mask.

Definition rotr (n x : Z) : Z :=
  Z.lor (Z.shiftr x n) (Z.land (Z.shiftl x (32 - n)) mask).

Definition ch (x y z : Z) : Z :=
  Z.lxor (Z.land x y) (Z.land (Z.lxor x mask) z).

Definition maj (x y z : Z) : Z :=
  Z.lxor (Z.lxor (Z.land x y) (Z.land x z)) (Z.land y z).

Definition big0 (x : Z) : Z :=
  Z.lxor (Z.lxor (rotr 2 x) (rotr 13 x)) (rotr 22 x).

Definition big1 (x : Z) : Z :=
  Z.lxor (Z.lxor (rotr 6 x) (rotr 11 x)) (rotr 25 x).

Definition small0 (x : Z) : Z :=
  Z.lxor (Z.lxor (rotr 7 x) (rotr 18 x)) (Z.shiftr x 3).

Definition small1 (x : Z) : Z :=
  Z.lxor (Z.lxor (rotr 17 x) (rotr 19 x)) (Z.shiftr x 10).

(** Integer root: the largest [r] below [2 ^ bits] with [r ^ e <= n]. *)
Fixpoint iroot (e : Z) (n : Z) (bits : nat) (r : Z) : Z :=
  match bits with
  | O => r
  | S k =>
      let r' := r + 2 ^ Z.of_nat k in
      iroot e n k (if r' ^ e <=? n then r' else r)
  end.

Definition is_prime (n : Z) : bool :=
  forallb (λ d, negb (n mod d =? 0)) (seqZ 2 (n - 2)).

Definition primes (count : nat) : list Z :=
  take count (filter (λ n, is_prime n = true) (seqZ 2 400)).

(** The first 32 bits of the fractional part of the [e]-th root of [p]. *)
Definition root_fraction (e : Z) (p : Z) : Z :=
  Z.land (iroot e (p * 2 ^ (32 * e)) 40 0) mask.

(** Cube roots of the first 64 primes. *)
Definition round_constants : list Z :=
  Eval vm_compute in root_fraction 3 <$> primes 64.

(** Square roots of the first 8 primes. *)
Definition initial_hash : list Z :=
  Eval vm_compute in root_fraction 2 <$> primes 8.

(** Big-endian bytes of an [n]-byte number. *)
Fixpoint be_bytes (n : nat) (x : Z) : list Z :=
  match n with
  | O => []
  | S k => Z.land (Z.shiftr x (8 * Z.of_nat k)) 0xff :: be_bytes k x
  end.

Definition be_word (l : list Z) : Z :=
  fold_left (λ acc b, Z.lor (Z.shiftl acc 8) b) l 0.

(** The message followed by [0x80], zeros up to 56 modulo 64, and the
    bit length on eight bytes. *)
Definition pad (msg : list Z) : list Z :=
  let len := Z.of_nat (length msg) in
  let zeros := Z.to_nat ((55 - len) mod 64) in
  msg ++ 0x80 :: replicate zeros 0 ++ be_bytes 8 (8 * len).

Fixpoint chunks (fuel size : nat) (l : list Z) : list (list Z) :=
  match fuel with
  | O => []
  | S f =>
      match l with
      | [] => []
      | _ => take size l :: chunks f size (drop size l)
      end
  end.

(** The message schedule, most recent word first. *)
Fixpoint extend (n : nat) (w : list Z) : list Z :=
  match n with
  | O => w
  | S k =>
      let x := add (add (small1 (w !!! 1%nat)) (w !!! 6%nat))
                   (add (small0 (w !!! 14%nat)) (w !!! 15%nat)) in
      extend k (x :: w)
  end.

Definition schedule (block : list Z) : list Z :=
  reverse (extend 48 (reverse (be_word <$> chunks 16 4 block))).

Definition round (s : list Z) (kw : Z * Z) : list Z :=
  match s with
  | [a; b; c; d; e; f; g; h] =>
      let t1 := add (add (add h (big1 e)) (add (ch e f g) kw.1)) kw.2 in
      let t2 := add (big0 a) (maj a b c) in
      [add t1 t2; a; b; c; add d t1; e; f; g]
  | _ => s
  end.

Definition compress (h : list Z) (block : list Z) : list Z :=
  let s := fold_left round (zip round_constants (schedule block)) h in
  zip_with add h s.

Definition digest (msg : list Z) : list Z :=
  let p := pad msg in
  let blocks := chunks (length p) 64 p in
  mjoin (be_bytes 4 <$> fold_left compress blocks initial_hash).

End Sha256.

Module Hmac.

Definition block_size : nat := 64.

(** [hmac.new(key, msg, hashlib.sha256).digest()] *)
Definition digest (key msg : list Z) : list Z :=
  let k := if decide (block_size < length key)%nat
           then Sha256.digest key else key in
  let k := k ++ replicate (block_size - length k) 0 in
  let inner := Sha256.digest (((λ b, Z.lxor b 0x36) <$> k) ++ msg) in
  Sha256.digest (((λ b, Z.lxor b 0x5c) <$> k) ++ inner).

End Hmac.

Module Base64.

Definition urlsafe_alphabet : string :=
  "ABCDEFGHIJKLMNOPQRSTUVWXYZabcdefghijklmnopqrstuvwxyz0123456789-_".

Definition sextet (n : Z) : ascii :=
  match String.get (Z.to_nat n) urlsafe_alphabet with
  | Some c => c
  | None => "="%char
  end.

Fixpoint encode (fuel : nat) (l : list Z) : string :=
  match fuel with
  | O => EmptyString
  | S f =>
      match l with
      | [] => EmptyString
      | [a] =>
          String (sextet (a / 4)) (String (sextet (a mod 4 * 16)) "==")
      | [a; b] =>
          String (sextet (a / 4))
            (String (sextet (a mod 4 * 16 + b / 16))
              (String (sextet (b mod 16 * 4)) "="))
      | a :: b :: c :: r =>
          String (sextet (a / 4))
            (String (sextet (a mod 4 * 16 + b / 16))
              (String (sextet (b mod 16 * 4 + c / 64))
                (String (sextet (c mod 64)) (encode f r))))
      end
  end.

(** [base64.urlsafe_b64encode(b).decode()] *)
Definition urlsafe_b64encode (l : list Z) : string := encode (length l) l.

End Base64.

(** ** Python values and [sorted] *)

(** The values of a parameter mapping: anything [str] can render.  The
    callers in [send_daily.py] pass strings only. *)
Inductive pyval : Type :=
  | PStr (s : string)
  | PInt (n : Z)
  | PBool (b : bool)
  | PNone.

Global Instance pyval_inhabited : Inhabited pyval := populate PNone.

(** [str(v)] *)
Definition str (v : pyval) : string :=
  match v with
  | PStr s => s
  | PInt n => pretty n
  | PBool true => "True"
  | PBool false => "False"
  | PNone => "None"
  end.

(** [a <= b] on tuples [(str, str)]: the first components decide unless
    they are equal. *)
Definition tuple_le (a b : string * string) : Prop :=
  (a.1 ≠ b.1 ∧ String.le a.1 b.1) ∨ (a.1 = b.1 ∧ String.le a.2 b.2).

Global Instance tuple_le_dec : RelDecision tuple_le.
Proof. intros a b. unfold tuple_le. apply _. Defined.

(** [sorted(xs)]: on a total order the sorted permutation is unique, so a
    merge sort computes what Python's sort does. *)
Definition sorted {A} (R : relation A) `{!RelDecision R} (l : list A)
    : list A :=
  merge_sort R l.

(** [b.rstrip("=")] after base64 *)
Definition strip_padding (s : string) : string :=
  Str.rstrip (Ascii.eqb "=") s.

(** ** [scripts/lib/signing.py] *)

Module Signing.

Definition canonical (params : gmap string pyval) : string :=
  let items :=
    sorted tuple_le
      ((λ kv, (kv.1, str kv.2)) <$>
         filter (λ kv : string * pyval, kv.1 ≠ "t") (map_to_list params)) in
  String.concat "&"
    ((λ kv : string * string, kv.1 +:+ "=" +:+ Urllib.quote_plus kv.2 "")
       <$> items).

Definition sign_params (params : gmap string pyval) (secret : string)
    : string :=
  let mac := Hmac.digest (Str.bytes secret) (Str.bytes (canonical params)) in
  let token := strip_padding (Base64.urlsafe_b64encode mac) in
  token.

End Signing.

(** ** The schedule store

    One JSON file [schedules/<username>.json] per user.  A file holds the
    keys [current_index], [last_action] and [last_action_date]; a field is
    [None] when the key is absent (for [last_action_date] also when it is
    [null]), which is what [dict.get] observes.  Any other key of a file
    is carried along by [dict.update] and never read; it is left out.
    [current_index] holds an integer and the other two fields hold
    strings, as the code writes them.

    The store is keyed by the user name.  A user name is taken to be a
    plain file name: one with a path separator in it, or two names that
    lead to the same path, are not modelled. *)

Record sched : Type := mksched {
  current_index : option Z;
  last_action : option string;
  last_action_date : option string
}.

Global Instance sched_eq_dec : EqDecision sched.
Proof. solve_decision. Defined.

Abbreviation schedules := (gmap string sched).

(** Code that reads and writes the store and may raise. *)
Definition M (A : Type) : Type := schedules → res A * schedules.

Definition ret {A} (a : A) : M A := λ st, (Ok a, st).

Definition raise {A} (e : exn) : M A := λ st, (Raise e, st).

Definition bind {A B} (m : M A) (k : A → M B) : M B :=
  λ st, match m st with
        | (Ok a, st') => k a st'
        | (Raise e, st') => (Raise e, st')
        end.

Definition lift {A} (r : res A) : M A := λ st, (r, st).

Notation "'let!' x ':=' m 'in' k" := (bind m (λ x, k))
  (at level 10, x name, m at level 200, k at level 200, only parsing).

(** [{"current_index": 0, "last_action_date": None, "last_action": "NONE"}] *)
Definition zero_sched : sched := mksched (Some 0) (Some "NONE") None.

(** [dict.get(key, default)] *)
Definition get {A} (field : option A) (dflt : A) : A :=
  match field with
  | Some a => a
  | None => dflt
  end.

(** ** Plans, splits and configuration files *)

(** A parsed JSON value, as read from [config/schedule.json]. *)
#[local] Unset Elimination Schemes.
Inductive json : Type :=
  | JNull
  | JBool (b : bool)
  | JNum (n : Z)
  | JStr (s : string)
  | JList (l : list json)
  | JDict (l : list (string * json)).
#[local] Set Elimination Schemes.

(** An exercise entry; a field is [None] when its key is absent. *)
Record exercise : Type := mkexercise {
  ex_id : option string;
  ex_name : option string;
  ex_sets : option Z;
  ex_reps : option string
}.

(** A split-like dict [{title, exercises}]. *)
Record split : Type := mksplit {
  title : string;
  exercises : list exercise
}.

(** The [custom_plan] object of a day's activity file. *)
Record custom_plan : Type := mkcustom {
  cp_title : option string;
  cp_exercises : option (list exercise)
}.

(** What [pick_split_for_today] returns: either the rest-day dict
    [{"__rest__": True, "title": ..., "message": ...}] or a split dict. *)
Inductive day : Type :=
  | RestDay (title message : string)
  | SplitDay (s : split).

(** [split.get("exercises", [])], as the renderer reads it. *)
Definition day_exercises (d : day) : list exercise :=
  match d with
  | RestDay _ _ => []
  | SplitDay s => exercises s
  end.

(** [split.get("__rest__")] *)
Definition is_rest_day (d : day) : bool :=
  match d with
  | RestDay _ _ => true
  | SplitDay _ => false
  end.

(** The files the selector reads and never writes:
    - [schedule_json]: the object in [config/schedule.json], [None] when the
      file does not exist;
    - [splits_dir]: for each existing file of [splits/], the result of
      [load_split_file] on it;
    - [custom_plans]: for each user and date whose activity file exists,
      parses and has a non-empty [custom_plan], that object. *)
Record files : Type := mkfiles {
  schedule_json : option (gmap string json);
  splits_dir : gmap string split;
  custom_plans : gmap (string * string) custom_plan
}.

(** An exercise entry as written in a plan or split file, before
    normalization; [exercise] is the alternative key for the name. *)
Record raw_exercise : Type := mkraw {
  raw_id : option string;
  raw_name : option string;
  raw_exercise_key : option string;
  raw_sets : option Z;
  raw_reps : option string
}.

(** A day of a user plan: [{title?, name?, exercises?}]. *)
Record raw_day : Type := mkrawday {
  rd_title : option string;
  rd_name : option string;
  rd_exercises : option (list raw_exercise)
}.

(** The object of [workout_splits/<username>/plan.json]; [up_other_keys]
    tells whether it has any key besides [days] (an object without keys is
    falsy). *)
Record user_plan : Type := mkplan {
  up_days : option (list raw_day);
  up_other_keys : bool
}.

(** The object of a file of [splits/], as [json.loads] returns it. *)
Record raw_split : Type := mkrawsplit {
  rs_title : option string;
  rs_exercises : option (list raw_exercise)
}.

(** The files [lib/plans.py] reads: the user plans by user name and the
    split files by file name. *)
Record plan_files : Type := mkplanfiles {
  user_plans : gmap string user_plan;
  split_files : gmap string raw_split
}.

(** [a or b] on an optional string: [None] and [""] are falsy. *)
Definition or_else (a : option string) (b : string) : string :=
  match a with
  | Some s => if String.eqb s "" then b else s
  | None => b
  end.

(** ** [scripts/lib/plans.py] *)

Module Plans.

Definition load_sched (username : string) : M sched :=
  λ st, match st !! username with
        | Some s => (Ok s, st)
        | None => (Ok zero_sched, st)
        end.

Definition save_sched (username : string) (s : sched) : M unit :=
  λ st, (Ok tt, <[username := s]> st).

(** [(last_action == "SKIPPED") and (last_date is not None)
     and (last_date >= yd)]; [>=] on [str] is the lexicographic order. *)
Definition freeze (last_action : string) (last_date : option string)
    (yd : string) : bool :=
  String.eqb last_action "SKIPPED" &&
  match last_date with
  | None => false
  | Some ld => String.leb yd ld
  end.

Definition pick_today_index (username today : string) (total : Z) : M Z :=
  let! sched := load_sched username in
  let idx := get (current_index sched) 0 mod Z.max 1 total in
  let last_action' := get (last_action sched) "NONE" in
  let last_date := last_action_date sched in
  let! yd := lift (Calendar.yesterday_iso today) in
  let idx := if negb (freeze last_action' last_date yd)
             then (idx + 1) mod Z.max 1 total else idx in
  (* baseline for today *)
  let sched := mksched (Some idx) (Some "NONE") (Some today) in
  let! _ := save_sched username sched in
  ret idx.

(** The default rotation titles of the library. *)
Definition ROTATION : list string := [ "Push day"; "Pull day"; "Leg day" ].

Definition slug (s : string) : string :=
  Str.replace_dashes
    (Str.strip_char "-"
       (Str.map (λ c, if Str.isalnum c then Str.lower_char c else "-"%char)
          s)).

Definition normalize_ex (e : raw_exercise) (i : nat) : exercise :=
  let name :=
    Str.strip
      (or_else (raw_name e)
         (or_else (raw_exercise_key e)
            ("Exercise " +:+ pretty (Z.of_nat i + 1)))) in
  let ex_id :=
    or_else (raw_id e) (slug (name +:+ "-" +:+ pretty (Z.of_nat i + 1))) in
  mkexercise (Some ex_id) (Some name) (raw_sets e) (raw_reps e).

Definition normalize_user_day (day : raw_day) (idx : Z) : split :=
  let title :=
    or_else (rd_title day)
      (or_else (rd_name day) ("Day " +:+ pretty (idx + 1))) in
  let raw_ex := get (rd_exercises day) [] in
  let ex_list := imap (λ i e, normalize_ex e i) raw_ex in
  mksplit title ex_list.

Definition load_user_plan (fs : plan_files) (username : string)
    : option user_plan :=
  user_plans fs !! username.

Definition load_split_by_title (fs : plan_files) (title : string)
    : res split :=
  match split_files fs !! (slug title +:+ ".json") with
  | None => Raise FileNotFoundError
  | Some data =>
      (* minimal normalization *)
      Ok (mksplit (get (rs_title data) title)
                  (imap (λ i e, normalize_ex e i)
                        (get (rs_exercises data) [])))
  end.

(** [if user_plan:] holds for an object with at least one key. *)
Definition plan_truthy (up : user_plan) : bool :=
  bool_decide (up_days up ≠ None) || up_other_keys up.

Definition pick_plan_and_day (fs : plan_files) (username today : string)
    : M (option user_plan * split) :=
  let user_plan := load_user_plan fs username in
  let usable :=
    match user_plan with
    | Some up => if plan_truthy up then Some up else None
    | None => None
    end in
  match usable with
  | Some up =>
      let days := get (up_days up) [] in
      match days with
      | [] => ret (Some up, mksplit "No days configured" [])
      | _ =>
          let! idx := pick_today_index username today
                        (Z.of_nat (length days)) in
          match days !! Z.to_nat idx with
          | Some d => ret (Some up, normalize_user_day d idx)
          | None => raise IndexError
          end
      end
  | None =>
      (* fallback to defaults *)
      let! idx := pick_today_index username today
                    (Z.of_nat (length ROTATION)) in
      match ROTATION !! Z.to_nat idx with
      | Some title =>
          lift (res_bind (load_split_by_title fs title)
                  (λ sp, Ok (None, sp)))
      | None => raise IndexError
      end
  end.

End Plans.

(** ** [scripts/send_daily.py] *)

Module SendDaily.

Definition DEFAULT_ROTATION_TITLES : list string :=
  [ "Push Day"; "Pull Day"; "Leg + Abs Day"; "Focus Day";
    "Full Body Power Day" ].

Definition TITLE_TO_FILE : list (string * string) :=
  [ ("Push Day", "Push_Day.json");
    ("Pull Day", "Pull_Day.json");
    ("Leg + Abs Day", "Leg_plus_Abs_Day.json");
    ("Focus Day", "Focus_Day.json");
    ("Full Body Power Day", "Full_Body_Power_Day.json") ].

Fixpoint assoc (k : string) (l : list (string * string)) : option string :=
  match l with
  | [] => None
  | (k', v) :: r => if String.eqb k k' then Some v else assoc k r
  end.

(** [_quote_plus(str(s), safe="")] *)
Definition quote_plus (s : pyval) : string := Urllib.quote_plus (str s) "".

Definition slug (s : string) : string :=
  Str.replace_dashes
    (Str.strip_char "-"
       (Str.map (λ c, if Str.isalnum c then Str.lower_char c else "-"%char)
          s)).

Definition b64url (b : list Z) : string :=
  strip_padding (Base64.urlsafe_b64encode b).

Definition canonical (params : gmap string pyval) : string :=
  let keys := sorted String.le (map_to_list params).*1 in
  String.concat "&"
    ((λ k, k +:+ "=" +:+ quote_plus (params !!! k)) <$> keys).

(** [SIGNING_SECRET] is the module-level setting read from the
    environment. *)
Definition sign_params (SIGNING_SECRET : string)
    (params : gmap string pyval) : res string :=
  if String.eqb SIGNING_SECRET "" then Raise RuntimeError
  else
    let mac := Hmac.digest (Str.bytes SIGNING_SECRET)
                           (Str.bytes (canonical params)) in
    Ok (b64url mac).

Definition load_default_split_by_title (fs : files) (title : string)
    : res split :=
  let mapped :=
    match assoc title TITLE_TO_FILE with
    | Some fn => splits_dir fs !! fn
    | None => None
    end in
  match mapped with
  | Some sp => Ok sp
  | None =>
      (* fallback for any new titles *)
      match splits_dir fs !! (slug title +:+ ".json") with
      | Some sp => Ok sp
      | None => Raise FileNotFoundError
      end
  end.

Definition load_sched (username : string) : M sched :=
  λ st, match st !! username with
        | Some s => (Ok s, st)
        | None => (Ok zero_sched, st)
        end.

Definition save_sched (username : string) (s : sched) : M unit :=
  λ st, (Ok tt, <[username := s]> st).

(** [a == b] for a stored value and a [str]. *)
Definition opt_str_eqb (a : option string) (b : string) : bool :=
  match a with
  | Some s => String.eqb s b
  | None => false
  end.

(** [(last_action == "SKIPPED") and (last_date == yd)] *)
Definition freeze (last_action : string) (last_date : option string)
    (yd : string) : bool :=
  String.eqb last_action "SKIPPED" && opt_str_eqb last_date yd.

Definition pick_today_index (username today_iso : string) (total : Z)
    : M Z :=
  let! sched := load_sched username in
  let idx := get (current_index sched) 0 mod Z.max 1 total in
  let last_action' := get (last_action sched) "NONE" in
  let last_date := last_action_date sched in
  let! idx :=
    if negb (opt_str_eqb last_date today_iso) then
      let! yd := lift (Calendar.yesterday_iso today_iso) in
      ret (if negb (freeze last_action' last_date yd)
           then (idx + 1) mod Z.max 1 total else idx)
    else ret idx in
  (* record "seen today"; the submit endpoint updates last_action later *)
  let sched := mksched (Some idx)
                       (Some (get (last_action sched) "NONE"))
                       (Some today_iso) in
  let! _ := save_sched username sched in
  ret idx.

Definition load_custom_plan_for_today (fs : files)
    (username today_iso : string) : res (option split) :=
  (* yyyy, mm, _dd = today_iso.split("-") *)
  if negb (Str.count "-" today_iso =? 2) then Raise ValueError
  else
    match custom_plans fs !! (username, today_iso) with
    | None => Ok None
    | Some plan =>
        Ok (Some (mksplit (get (cp_title plan) "Custom Session")
                          (get (cp_exercises plan) [])))
    end.

(** The [(mode, payload)] pair of [pick_scheduled_split_or_rest]. *)
Inductive scheduled : Type :=
  | NoSchedule
  | Rest (title message : string)
  | Split (payload : split).

Definition rest_message : string :=
  "Today is a rest day. If you still want to train, use Customized Session to log a light or mobility workout.".

(** [entry is None or (isinstance(entry, str) and entry.strip() == "")
     or (isinstance(entry, str) and entry.strip().lower() == "rest")],
    where [entry = sched.get(weekday)] is [None] for an absent key. *)
Definition is_rest_entry (entry : option json) : bool :=
  match entry with
  | None | Some JNull => true
  | Some (JStr e) =>
      String.eqb (Str.strip e) "" ||
      String.eqb (Str.lower (Str.strip e)) "rest"
  | Some _ => false
  end.

Definition pick_scheduled_split_or_rest (fs : files) (today_iso : string)
    : res scheduled :=
  match schedule_json fs with
  | None => Ok NoSchedule
  | Some sched =>
      res_bind (Calendar.fromisoformat today_iso) (λ d,
      let weekday := Calendar.strftime_A d in
      let entry := sched !! weekday in
      if is_rest_entry entry then Ok (Rest "Rest Day" rest_message)
      else
        match entry with
        | Some (JStr e) =>
            match splits_dir fs !! e with
            | None => Raise FileNotFoundError
            | Some sp => Ok (Split sp)
            end
        | _ => Raise ValueError
        end)
  end.

Definition pick_split_for_today (fs : files) (username today_iso : string)
    : M day :=
  let! r := lift (pick_scheduled_split_or_rest fs today_iso) in
  match r with
  | Rest t m => ret (RestDay t m)
  | Split payload => ret (SplitDay payload)
  | NoSchedule =>
      let! custom := lift (load_custom_plan_for_today fs username today_iso) in
      let total := Z.of_nat (length DEFAULT_ROTATION_TITLES) in
      (* custom and custom.get("exercises") *)
      let usable :=
        match custom with
        | Some c => if bool_decide (exercises c = []) then None else Some c
        | None => None
        end in
      match usable with
      | Some c =>
          let! _ := pick_today_index username today_iso total in
          ret (SplitDay c)
      | None =>
          let! idx := pick_today_index username today_iso total in
          match DEFAULT_ROTATION_TITLES !! Z.to_nat idx with
          | Some t => lift (res_bind (load_default_split_by_title fs t)
                              (λ sp, Ok (SplitDay sp)))
          | None => raise IndexError
          end
      end
  end.

(** [p = dict(params); p[k] = v] on the items of an insertion-ordered
    dict: an existing key keeps its place, a new one goes last. *)
Fixpoint dict_set (k : string) (v : pyval) (d : list (string * pyval))
    : list (string * pyval) :=
  match d with
  | [] => [(k, v)]
  | (k', v') :: r =>
      if String.eqb k k' then (k', v) :: r else (k', v') :: dict_set k v r
  end.

(** [params] is given by its items in insertion order. *)
Definition build_signed_url (SIGNING_SECRET : string) (base : string)
    (params : list (string * pyval)) : res string :=
  res_bind (sign_params SIGNING_SECRET (list_to_map params)) (λ t,
  let p := dict_set "t" (PStr t) params in
  let qs :=
    String.concat "&"
      ((λ kv : string * pyval, kv.1 +:+ "=" +:+ quote_plus kv.2) <$> p) in
  let joiner := if Str.mem "?" base then "&" else "?" in
  Ok (base +:+ joiner +:+ qs)).

End SendDaily.


(** ** Reading the store *)

(** The record [load_sched] hands to the scheduler: the stored one, or the
    zero state for a user without a file. *)
Definition stored (st : schedules) (username : string) : sched :=
  match st !! username with
  | Some s => s
  | None => zero_sched
  end.

(** The loaded index, reduced modulo the rotation length. *)
Definition reduced (s : sched) (total : Z) : Z :=
  get (current_index s) 0 mod Z.max 1 total.

(** A scheduler called once for each day of a list, in order, with
    nothing else writing the store in between; the indices it returned. *)
Fixpoint run_days (pick : string → string → Z → M Z)
    (username : string) (total : Z) (days : list string) : M (list Z) :=
  match days with
  | [] => ret []
  | d :: ds =>
      let! i := pick username d total in
      let! later := run_days pick username total ds in
      ret (i :: later)
  end.

(** Each day of the list is the day after the one before it. *)
Fixpoint consecutive (prev : string) (days : list string) : Prop :=
  match days with
  | [] => True
  | d :: ds => Calendar.yesterday_iso d = Ok prev ∧ consecutive d ds
  end.

(** The characters [quote_plus] can put out. *)
Definition url_char (c : ascii) : bool :=
  Urllib.always_safe c || Ascii.eqb c "%" || Ascii.eqb c "+".

Fixpoint all_chars (p : ascii → bool) (s : string) : bool :=
  match s with
  | EmptyString => true
  | String c r => p c && all_chars p r
  end.

(** Strings of ASCII characters, on which [Str.isalnum], [Str.lower] and
    [Str.isspace] are what Python computes. *)
Definition is_ascii (s : string) : bool :=
  all_chars (λ c, Str.code c <? 128) s.

(** A day string [date.fromisoformat] accepts and that has a day before
    it. *)
Definition has_yesterday (d : string) : Prop :=
  ∃ yd, Calendar.yesterday_iso d = Ok yd.

(** No day of the list repeats the day recorded just before it. *)
Fixpoint fresh_days (prev : option string) (days : list string) : Prop :=
  match days with
  | [] => True
  | d :: ds => prev ≠ Some d ∧ fresh_days (Some d) ds
  end.

(** What [quote_plus(s, safe="")] writes for one byte. *)
Definition plus_byte (c : ascii) : string :=
  if Urllib.always_safe c then String c EmptyString
  else if Ascii.eqb c " " then "+"
  else String "%" (String (Urllib.hex_digit (Str.code c / 16))
                  (String (Urllib.hex_digit (Str.code c mod 16)) EmptyString)).

(** A string encoded character by character. *)
Fixpoint encode_each (f : ascii → string) (s : string) : string :=
  match s with
  | EmptyString => EmptyString
  | String c r => f c +:+ encode_each f r
  end.

(** The value of an upper-case hexadecimal digit. *)
Definition unhex (c : ascii) : Z :=
  if Str.isdigit c then Str.code c - 48 else Str.code c - 55.

(** A decoder for the output of [quote_plus]. *)
Fixpoint unquote_plus (s : string) : string :=
  match s with
  | String "%" (String h (String l r)) =>
      String (Str.chr (16 * unhex h + unhex l)) (unquote_plus r)
  | String "+" r => String " " (unquote_plus r)
  | String c r => String c (unquote_plus r)
  | EmptyString => EmptyString
  end.

(** The characters of the URL-safe base64 alphabet. *)
Definition b64_char (c : ascii) : bool := Str.mem c Base64.urlsafe_alphabet.

(** The values of a byte. *)
Definition is_byte (b : Z) : Prop := 0 ≤ b < 256.

(** The characters of a slug. *)
Definition slug_char (c : ascii) : bool :=
  Str.islower c || Str.isdigit c || Ascii.eqb c "-".

(** The first and the last character of a string. *)
Definition first_char (s : string) : option ascii :=
  match s with
  | EmptyString => None
  | String c _ => Some c
  end.

Fixpoint last_char (s : string) : option ascii :=
  match s with
  | EmptyString => None
  | String c EmptyString => Some c
  | String _ r => last_char r
  end.

(** In [slug], what a character becomes before dashes are trimmed. *)
Definition slug_map (c : ascii) : ascii :=
  if Str.isalnum c then Str.lower_char c else "-"%char.

(** The dash, as a test. *)
Definition is_dash (c : ascii) : bool := Ascii.eqb "-" c.

(** A string is [headed] when it is empty or ends with a dash: what stands
    before the number in a slug. *)
Definition headed (r : string) : Prop := r = "" ∨ last_char r = Some "-"%char.

(** What follows the last dash of a string. *)
Fixpoint after_dash (s : string) : string :=
  match s with
  | EmptyString => EmptyString
  | String c r =>
      if Str.mem "-" r then after_dash r
      else if is_dash c then r else s
  end.

(** The id [normalize_ex] makes up when the entry has none. *)
Definition made_id (name : string) (i : nat) : string :=
  Plans.slug (name +:+ "-" +:+ pretty (Z.of_nat i + 1)).

(** An entry without a usable [id]: the key is absent or empty. *)
Definition no_id (e : raw_exercise) : Prop :=
  raw_id e = None ∨ raw_id e = Some "".



(** * Properties *)

(** ** The calendar *)

Example yesterday_iso_leap : Calendar.yesterday_iso "2024-03-01" = Ok "2024-02-29".
Proof. reflexivity. Qed.

Example yesterday_iso_new_year : Calendar.yesterday_iso "2025-01-01" = Ok "2024-12-31".
Proof. reflexivity. Qed.

Example yesterday_iso_century : Calendar.yesterday_iso "1900-03-01" = Ok "1900-02-28".
Proof. reflexivity. Qed.

Example yesterday_iso_min : Calendar.yesterday_iso "0001-01-01" = Raise OverflowError.
Proof. reflexivity. Qed.

Example yesterday_iso_malformed : Calendar.yesterday_iso "2024-3-1" = Raise ValueError.
Proof. reflexivity. Qed.

Example strftime_A_wednesday :
  Calendar.strftime_A (Calendar.mkdate 2024 3 6) = "Wednesday".
Proof. reflexivity. Qed.

(** [sub_one_day] is the previous day of the calendar: it stays in the
    range of [date] and lowers the ordinal by one. *)

Lemma days_before_year_step y :
  Calendar.days_before_year (y + 1)
  = Calendar.days_before_year y + (if Calendar.is_leap y then 366 else 365).
Proof.
  unfold Calendar.days_before_year, Calendar.is_leap. cbn zeta.
  replace (y + 1 - 1) with y by lia.
  destruct (Z.eqb_spec (y mod 4) 0), (Z.eqb_spec (y mod 100) 0),
    (Z.eqb_spec (y mod 400) 0); cbn [negb orb andb];
    Z.div_mod_to_equations; lia.
Qed.

Lemma days_before_month_step y m :
  2 ≤ m →
  Calendar.days_before_month y m
  = Calendar.days_before_month y (m - 1) + Calendar.days_in_month y (m - 1).
Proof.
  intros Hm. unfold Calendar.days_before_month.
  replace (Z.to_nat (m - 1)) with (S (Z.to_nat (m - 1 - 1))) by lia.
  cbn [Calendar.days_before_month_aux]. do 2 f_equal. lia.
Qed.

Lemma days_before_december y :
  Calendar.days_before_month y 12 + 31 = if Calendar.is_leap y then 366 else 365.
Proof.
  unfold Calendar.days_before_month. 
  change (Z.to_nat (12 - 1)) with 11%nat. cbn [Calendar.days_before_month_aux].
  unfold Calendar.days_in_month. cbn. destruct (Calendar.is_leap y); reflexivity.
Qed.

Lemma valid_day_pos d : Calendar.valid d = true → 1 ≤ Calendar.day d.
Proof.
  unfold Calendar.valid. rewrite !andb_true_iff, !Z.leb_le. tauto.
Qed.

Lemma sub_one_day_toordinal d d' :
  Calendar.valid d = true →
  Calendar.sub_one_day d = Ok d' →
  Calendar.toordinal d' = Calendar.toordinal d - 1.
Proof.
  intros Hv%valid_day_pos. revert Hv.
  unfold Calendar.sub_one_day, Calendar.toordinal.
  destruct d as [y m dd]; cbn [Calendar.year Calendar.month Calendar.day].
  intros Hdd.
  destruct (Z.ltb_spec 1 dd); [intros [= <-]; cbn; lia|].
  destruct (Z.ltb_spec 1 m).
  - intros [= <-]. cbn [Calendar.year Calendar.month Calendar.day].
    rewrite (days_before_month_step y m) by lia. lia.
  - destruct (Z.ltb_spec 1 y); [|done].
    intros [= <-]. cbn [Calendar.year Calendar.month Calendar.day].
    replace (Calendar.days_before_year y)
      with (Calendar.days_before_year (y - 1 + 1)) by (f_equal; lia).
    rewrite days_before_year_step.
    pose proof (days_before_december (y - 1)).
    assert (Calendar.days_before_month y m = 0) as ->.
    { unfold Calendar.days_before_month.
      replace (Z.to_nat (m - 1)) with 0%nat by lia. done. }
    lia.
Qed.



(** ** Dates and the order of their strings

    [lib/plans.py] compares [last_action_date] with yesterday as strings.
    On [YYYY-MM-DD] strings that order is the order of the calendar. *)























(** ** Bounds of the reduced index *)

Lemma reduced_bounds s total : 0 < total → 0 ≤ reduced s total < total.
Proof.
  intros Hpos. unfold reduced.
  replace (Z.max 1 total) with total by lia.
  apply Z.mod_pos_bound; lia.
Qed.

Lemma advance_bounds i total : 0 < total → 0 ≤ (i + 1) mod Z.max 1 total < total.
Proof.
  intros Hpos. replace (Z.max 1 total) with total by lia.
  apply Z.mod_pos_bound; lia.
Qed.

Lemma reduced_small k la ld total :
  0 ≤ k < total → reduced (mksched (Some k) la ld) total = k.
Proof.
  intros Hk. unfold reduced; simpl.
  replace (Z.max 1 total) with total by lia.
  apply Z.mod_small; lia.
Qed.

Lemma advance_reduced k la ld total :
  1 ≤ total →
  (reduced (mksched (Some k) la ld) total + 1) mod Z.max 1 total
  = (k + 1) mod total.
Proof.
  intros Hpos. unfold reduced; simpl.
  replace (Z.max 1 total) with total by lia.
  apply Z.add_mod_idemp_l; lia.
Qed.

(** ** What one call of each scheduler does *)

Lemma plans_run username today yd total st :
  Calendar.yesterday_iso today = Ok yd →
  Plans.pick_today_index username today total st =
    let s := stored st username in
    let i := reduced s total in
    let i' := if Plans.freeze (get (last_action s) "NONE")
                              (last_action_date s) yd
              then i else (i + 1) mod Z.max 1 total in
    (Ok i', <[username := mksched (Some i') (Some "NONE") (Some today)]> st).
Proof.
  intros Hyd.
  unfold Plans.pick_today_index, bind, Plans.load_sched, lift,
    Plans.save_sched, ret, stored, reduced.
  destruct (st !! username) as [s|]; rewrite Hyd; cbn [negb];
    match goal with |- context [Plans.freeze ?a ?b ?c] =>
      destruct (Plans.freeze a b c) end; reflexivity.
Qed.

Lemma plans_run_raise username today e total st :
  Calendar.yesterday_iso today = Raise e →
  Plans.pick_today_index username today total st = (Raise e, st).
Proof.
  intros Hyd.
  unfold Plans.pick_today_index, bind, Plans.load_sched, lift.
  destruct (st !! username); rewrite Hyd; reflexivity.
Qed.

Lemma send_run_same_day username today total st :
  last_action_date (stored st username) = Some today →
  SendDaily.pick_today_index username today total st =
    let s := stored st username in
    let i := reduced s total in
    (Ok i, <[username := mksched (Some i) (Some (get (last_action s) "NONE"))
                                 (Some today)]> st).
Proof.
  intros Hd.
  unfold SendDaily.pick_today_index, bind, SendDaily.load_sched, lift,
    SendDaily.save_sched, ret, stored, reduced in *.
  destruct (st !! username) as [s|]; rewrite Hd; simpl;
    rewrite String.eqb_refl; reflexivity.
Qed.

Lemma send_run_new_day username today yd total st :
  last_action_date (stored st username) ≠ Some today →
  Calendar.yesterday_iso today = Ok yd →
  SendDaily.pick_today_index username today total st =
    let s := stored st username in
    let i := reduced s total in
    let i' := if SendDaily.freeze (get (last_action s) "NONE")
                                  (last_action_date s) yd
              then i else (i + 1) mod Z.max 1 total in
    (Ok i', <[username := mksched (Some i') (Some (get (last_action s) "NONE"))
                                  (Some today)]> st).
Proof.
  intros Hd Hyd.
  assert (Hne : SendDaily.opt_str_eqb (last_action_date (stored st username))
                  today = false).
  { destruct (last_action_date (stored st username)) as [d|]; simpl; [|done].
    apply String.eqb_neq. congruence. }
  unfold SendDaily.pick_today_index, bind, SendDaily.load_sched, lift,
    SendDaily.save_sched, ret, stored, reduced in *.
  destruct (st !! username) as [s|]; rewrite Hne; cbn [negb]; rewrite Hyd;
    match goal with |- context [SendDaily.freeze ?a ?b ?c] =>
      destruct (SendDaily.freeze a b c) end; reflexivity.
Qed.

Lemma send_run_raise username today e total st :
  last_action_date (stored st username) ≠ Some today →
  Calendar.yesterday_iso today = Raise e →
  SendDaily.pick_today_index username today total st = (Raise e, st).
Proof.
  intros Hd Hyd.
  assert (Hne : SendDaily.opt_str_eqb (last_action_date (stored st username))
                  today = false).
  { destruct (last_action_date (stored st username)) as [d|]; simpl; [|done].
    apply String.eqb_neq. congruence. }
  unfold SendDaily.pick_today_index, bind, SendDaily.load_sched, lift,
    stored in *.
  destruct (st !! username) as [s|]; rewrite Hne; cbn [negb]; rewrite Hyd;
    reflexivity.
Qed.

Lemma stored_insert username s st : stored (<[username := s]> st) username = s.
Proof. unfold stored. by rewrite lookup_insert_eq. Qed.

(** ** The freeze conditions *)

Lemma send_freeze_spec la ld yd :
  SendDaily.freeze la ld yd = true ↔ la = "SKIPPED" ∧ ld = Some yd.
Proof.
  unfold SendDaily.freeze, SendDaily.opt_str_eqb.
  rewrite andb_true_iff, String.eqb_eq.
  destruct ld as [d|].
  - rewrite String.eqb_eq.
    split; [by intros [-> ->] | by intros [-> [= ->]]].
  - split; [by intros [_ ?] | by intros [_ ?]].
Qed.



(** ** Same-day behaviour of the sender's scheduler *)

(** Once a day is recorded, [send_daily.pick_today_index] returns the
    stored index and leaves the record as it is. *)
Lemma send_same_day_stable username today k la total st :
  st !! username = Some (mksched (Some k) (Some la) (Some today)) →
  0 ≤ k < total →
  SendDaily.pick_today_index username today total st = (Ok k, st).
Proof.
  intros Hst Hk.
  assert (Hs : stored st username = mksched (Some k) (Some la) (Some today))
    by (unfold stored; by rewrite Hst).
  rewrite send_run_same_day by (by rewrite Hs).
  cbn zeta. rewrite Hs, reduced_small by done. cbn [get last_action].
  by rewrite insert_id.
Qed.

(** Two calls of [send_daily.pick_today_index] on the same day return the
    same index, and the second call changes nothing. *)
Lemma send_twice_same_day username today yd total st :
  Calendar.yesterday_iso today = Ok yd →
  0 < total →
  ∃ i st1,
    SendDaily.pick_today_index username today total st = (Ok i, st1) ∧
    SendDaily.pick_today_index username today total st1 = (Ok i, st1).
Proof.
  intros Hyd Hpos.
  destruct (decide (last_action_date (stored st username) = Some today))
    as [Hd|Hd].
  - rewrite send_run_same_day by done. cbn zeta.
    eexists _, _. split; [done|].
    eapply send_same_day_stable; [apply lookup_insert_eq|].
    by apply reduced_bounds.
  - rewrite (send_run_new_day _ _ yd) by done. cbn zeta.
    eexists _, _. split; [done|].
    eapply send_same_day_stable; [apply lookup_insert_eq|].
    destruct (SendDaily.freeze _ _ _);
      [by apply reduced_bounds | by apply advance_bounds].
Qed.

(** ** Claims about the rotation transition *)

(** C1 (same-day idempotence), on [lib/plans.py].  The library scheduler
    has no same-day guard: from the empty store with a three-way rotation
    the first call on 2024-03-01 returns 1 and records that day with
    [last_action = "NONE"]; a second call with the same [today] and [total]
    finds [last_action_date = today], advances again and returns 2.  The
    sender's scheduler is stable there ([send_twice_same_day]). *)
Theorem plans_same_day_advances_twice :
  Plans.pick_today_index "ana" "2024-03-01" 3 ∅
    = (Ok 1, {[ "ana" := mksched (Some 1) (Some "NONE") (Some "2024-03-01") ]})
  ∧ Plans.pick_today_index "ana" "2024-03-01" 3
      {[ "ana" := mksched (Some 1) (Some "NONE") (Some "2024-03-01") ]}
    = (Ok 2, {[ "ana" := mksched (Some 2) (Some "NONE") (Some "2024-03-01") ]})
  ∧ SendDaily.pick_today_index "ana" "2024-03-01" 3
      {[ "ana" := mksched (Some 1) (Some "NONE") (Some "2024-03-01") ]}
    = (Ok 1, {[ "ana" := mksched (Some 1) (Some "NONE") (Some "2024-03-01") ]}).
Proof. repeat split; vm_compute; reflexivity. Qed.







Lemma not_skipped_no_freeze la :
  la = "COMPLETED" ∨ la = "NONE" → String.eqb la "SKIPPED" = false.
Proof. by intros [-> | ->]. Qed.

(** C3 (advance law).  With [last_action] equal to ["COMPLETED"] or
    ["NONE"], [current_index = k] and a [today] that is not the recorded
    day, both schedulers return [(k + 1) mod total]. *)
Theorem advance_law username today yd la ld k total st :
  Calendar.yesterday_iso today = Ok yd →
  stored st username = mksched (Some k) (Some la) ld →
  la = "COMPLETED" ∨ la = "NONE" →
  ld ≠ Some today →
  1 ≤ total →
  fst (Plans.pick_today_index username today total st)
    = Ok ((k + 1) mod total)
  ∧ fst (SendDaily.pick_today_index username today total st)
    = Ok ((k + 1) mod total).
Proof.
  intros Hyd Hs Hla Hld Hpos. apply not_skipped_no_freeze in Hla. split.
  - rewrite (plans_run _ _ yd) by done. cbn zeta. rewrite Hs.
    cbn [get last_action last_action_date]. unfold Plans.freeze.
    rewrite Hla. cbn [andb fst]. by rewrite advance_reduced.
  - rewrite (send_run_new_day _ _ yd) by (by rewrite ?Hs).
    cbn zeta. rewrite Hs.
    cbn [get last_action last_action_date]. unfold SendDaily.freeze.
    rewrite Hla. cbn [andb fst]. by rewrite advance_reduced.
Qed.

Lemma advance_law_witness :
  let st : schedules :=
    {[ "ana" := mksched (Some 4) (Some "COMPLETED") (Some "2024-02-29") ]} in
  Calendar.yesterday_iso "2024-03-01" = Ok "2024-02-29"
  ∧ stored st "ana" = mksched (Some 4) (Some "COMPLETED") (Some "2024-02-29")
  ∧ fst (Plans.pick_today_index "ana" "2024-03-01" 5 st) = Ok 0
  ∧ fst (SendDaily.pick_today_index "ana" "2024-03-01" 5 st) = Ok 0.
Proof.
  intros st.
  assert (H1 : Calendar.yesterday_iso "2024-03-01" = Ok "2024-02-29")
    by reflexivity.
  assert (H2 : stored st "ana"
               = mksched (Some 4) (Some "COMPLETED") (Some "2024-02-29"))
    by reflexivity.
  assert (H3 : "COMPLETED" = "COMPLETED" ∨ "COMPLETED" = "NONE")
    by (left; reflexivity).
  assert (H4 : Some "2024-02-29" ≠ Some "2024-03-01") by discriminate.
  assert (H5 : 1 ≤ 5) by lia.
  pose proof (advance_law "ana" "2024-03-01" "2024-02-29" "COMPLETED"
                (Some "2024-02-29") 4 5 st H1 H2 H3 H4 H5) as [Hp Hs].
  exact (conj H1 (conj H2 (conj Hp Hs))).
Defined.

(** First run: an empty store and a three-way rotation give index 1, and
    the record [{1, "NONE", today}] is written. *)
Example first_run_default :
  Plans.pick_today_index "ana" "2024-03-01" 3 ∅
    = (Ok 1, {[ "ana" := mksched (Some 1) (Some "NONE") (Some "2024-03-01") ]})
  ∧ SendDaily.pick_today_index "ana" "2024-03-01" 3 ∅
    = (Ok 1, {[ "ana" := mksched (Some 1) (Some "NONE") (Some "2024-03-01") ]}).
Proof. split; vm_compute; reflexivity. Qed.

(** The sender's scheduler writes the stored [last_action] back on every
    call that returns, on a new day as on a recorded one; the library
    scheduler writes ["NONE"]. *)
Lemma send_keeps_stored_action username today yd la total st :
  Calendar.yesterday_iso today = Ok yd →
  last_action (stored st username) = Some la →
  (∃ i, SendDaily.pick_today_index username today total st
        = (Ok i, <[username := mksched (Some i) (Some la) (Some today)]> st))
  ∧ (∃ i, Plans.pick_today_index username today total st
          = (Ok i, <[username := mksched (Some i) (Some "NONE") (Some today)]>
                     st)).
Proof.
  intros Hyd Hla. split.
  - destruct (decide (last_action_date (stored st username) = Some today))
      as [Hd|Hd].
    + rewrite send_run_same_day by done. cbn zeta. rewrite Hla. by eexists.
    + rewrite (send_run_new_day _ _ yd) by done. cbn zeta. rewrite Hla.
      by eexists.
  - rewrite (plans_run _ _ yd) by done. cbn zeta. by eexists.
Qed.

(** C4 (baseline persistence), on [send_daily.py].  With a completion
    recorded on 2024-02-29, the call for 2024-03-01 returns 3 and the
    sender's scheduler persists [{3, "COMPLETED", 2024-03-01}]: the stored
    action is written back, not ["NONE"].  The library scheduler persists
    [{3, "NONE", 2024-03-01}] on the same input. *)
Theorem send_baseline_keeps_action :
  let st : schedules :=
    {[ "ana" := mksched (Some 2) (Some "COMPLETED") (Some "2024-02-29") ]} in
  SendDaily.pick_today_index "ana" "2024-03-01" 5 st
  = (Ok 3,
     {[ "ana" := mksched (Some 3) (Some "COMPLETED") (Some "2024-03-01") ]})
  ∧ Plans.pick_today_index "ana" "2024-03-01" 5 st
    = (Ok 3, {[ "ana" := mksched (Some 3) (Some "NONE") (Some "2024-03-01") ]}).
Proof. split; vm_compute; reflexivity. Qed.

(** C9 (bounds under a changed rotation length).  Whatever index is
    stored, for a positive [total] the index read from the store is reduced
    into [0, total), and the index each scheduler returns lies in
    [0, total) and is the one it writes to the store. *)
Theorem index_in_bounds username today yd total st :
  Calendar.yesterday_iso today = Ok yd →
  0 < total →
  0 ≤ reduced (stored st username) total < total
  ∧ (∃ i st', Plans.pick_today_index username today total st = (Ok i, st')
       ∧ 0 ≤ i < total ∧ current_index (stored st' username) = Some i)
  ∧ (∃ i st', SendDaily.pick_today_index username today total st = (Ok i, st')
       ∧ 0 ≤ i < total ∧ current_index (stored st' username) = Some i).
Proof.
  intros Hyd Hpos. split; [by apply reduced_bounds|]. split.
  - rewrite (plans_run _ _ yd) by done. cbn zeta.
    eexists _, _. split; [done|]. rewrite stored_insert. split; [|done].
    destruct (Plans.freeze _ _ _);
      [by apply reduced_bounds | by apply advance_bounds].
  - destruct (decide (last_action_date (stored st username) = Some today))
      as [Hd|Hd].
    + rewrite send_run_same_day by done. cbn zeta.
      eexists _, _. split; [done|]. rewrite stored_insert. split; [|done].
      by apply reduced_bounds.
    + rewrite (send_run_new_day _ _ yd) by done. cbn zeta.
      eexists _, _. split; [done|]. rewrite stored_insert. split; [|done].
      destruct (SendDaily.freeze _ _ _);
        [by apply reduced_bounds | by apply advance_bounds].
Qed.

Lemma index_in_bounds_witness :
  let st : schedules :=
    {[ "ana" := mksched (Some 4) (Some "SKIPPED") (Some "2024-02-29") ]} in
  Calendar.yesterday_iso "2024-03-01" = Ok "2024-02-29"
  ∧ 0 < 3
  ∧ 0 ≤ reduced (stored st "ana") 3 < 3
  ∧ (∃ i st', Plans.pick_today_index "ana" "2024-03-01" 3 st = (Ok i, st')
       ∧ 0 ≤ i < 3 ∧ current_index (stored st' "ana") = Some i)
  ∧ (∃ i st', SendDaily.pick_today_index "ana" "2024-03-01" 3 st = (Ok i, st')
       ∧ 0 ≤ i < 3 ∧ current_index (stored st' "ana") = Some i).
Proof.
  intros st.
  assert (H1 : Calendar.yesterday_iso "2024-03-01" = Ok "2024-02-29")
    by reflexivity.
  assert (H2 : 0 < 3) by lia.
  exact (conj H1 (conj H2
           (index_in_bounds "ana" "2024-03-01" "2024-02-29" 3 st H1 H2))).
Defined.

(** A stale index 4 from a five-way rotation, read under a three-way one. *)
Example stale_index_reduced :
  fst (Plans.pick_today_index "ana" "2024-03-01" 3
         {[ "ana" := mksched (Some 4) (Some "SKIPPED") (Some "2024-02-29") ]})
    = Ok 1
  ∧ fst (SendDaily.pick_today_index "ana" "2024-03-01" 3
         {[ "ana" := mksched (Some 4) (Some "NONE") (Some "2024-02-29") ]})
    = Ok 2.
Proof. split; reflexivity. Qed.

(** ** The order on [(key, value)] tuples *)

Global Instance tuple_le_trans : Transitive tuple_le.
Proof.
  intros [a1 a2] [b1 b2] [c1 c2]. unfold tuple_le; simpl.
  intros [[Hab1 Hab2] | [-> Hab]] [[Hbc1 Hbc2] | [-> Hbc]].
  - left. split; [|by etrans].
    intros ->. apply Hab1. by apply (anti_symm String.le).
  - left. done.
  - left. done.
  - right. split; [done | by etrans].
Qed.

Global Instance tuple_le_antisym : AntiSymm (=) tuple_le.
Proof.
  intros [a1 a2] [b1 b2]. unfold tuple_le; simpl.
  intros [[Hab1 Hab2] | [-> Hab]] [[Hba1 Hba2] | [Heq Hba]]; try done.
  - exfalso. apply Hab1. by apply (anti_symm String.le).
  - f_equal. by apply (anti_symm String.le).
Qed.

Global Instance tuple_le_total : Total tuple_le.
Proof.
  intros [a1 a2] [b1 b2]. unfold tuple_le; simpl.
  destruct (decide (a1 = b1)) as [->|Hne].
  - destruct (total String.le a2 b2); [left | right]; by right.
  - destruct (total String.le a1 b1); [left | right]; left; done.
Qed.


Lemma filter_all {A} (P : A → Prop) `{!∀ x, Decision (P x)} (l : list A) :
  Forall P l → filter P l = l.
Proof.
  induction 1 as [|x l Hx _ IH]; [done|].
  rewrite filter_cons_True by done. by rewrite IH.
Qed.

(** ** The two canonical strings *)


Lemma items_no_t (p : gmap string pyval) :
  p !! "t" = None →
  filter (λ kv : string * pyval, kv.1 ≠ "t") (map_to_list p) = map_to_list p.
Proof.
  intros Ht. apply filter_all, Forall_forall. intros [k v] Hkv; simpl.
  apply elem_of_map_to_list in Hkv. congruence.
Qed.



(** Sorting the keys and looking the values up gives the sorted items. *)
Lemma sorted_keys_items (p : gmap string pyval) :
  (λ k, (k, str (p !!! k))) <$> sorted String.le (map_to_list p).*1
  = sorted tuple_le ((λ kv, (kv.1, str kv.2)) <$> map_to_list p).
Proof.
  unfold sorted.
  apply (Sorted_unique tuple_le); [| apply Sorted_merge_sort; apply _ |].
  - (* the keys are distinct, so their order decides *)
    assert (Hnd : NoDup (merge_sort String.le (map_to_list p).*1)).
    { rewrite merge_sort_Permutation. apply NoDup_fst_map_to_list. }
    assert (Hss : StronglySorted String.le
                    (merge_sort String.le (map_to_list p).*1)).
    { apply StronglySorted_merge_sort; apply _. }
    apply StronglySorted_Sorted.
    induction Hss as [|k ks Hss IH Hall]; csimpl; [constructor|].
    apply NoDup_cons in Hnd as [Hk Hnd].
    constructor; [by apply IH|].
    apply Forall_fmap, Forall_forall. intros k' Hk'. simpl.
    left. simpl. split.
    + intros ->. done.
    + rewrite Forall_forall in Hall. by apply Hall.
  - rewrite !merge_sort_Permutation.
    rewrite <- list_fmap_compose.
    assert ((λ k, (k, str (p !!! k))) ∘ fst <$> map_to_list p
            = (λ kv, (kv.1, str kv.2)) <$> map_to_list p) as ->; [|done].
    apply Forall_fmap_ext_1, Forall_forall. intros [k v] Hkv; simpl.
    apply elem_of_map_to_list in Hkv.
    by rewrite (lookup_total_correct _ _ _ Hkv).
Qed.

Lemma canonical_agree (p : gmap string pyval) :
  p !! "t" = None → Signing.canonical p = SendDaily.canonical p.
Proof.
  intros Ht. unfold Signing.canonical, SendDaily.canonical.
  rewrite items_no_t by done.
  rewrite <- sorted_keys_items, <- list_fmap_compose.
  done.
Qed.

(** ** Claims about the signers *)

(** The sender's signer refuses an empty secret and returns a token for
    every other one. *)
Lemma send_sign_empty_secret (p : gmap string pyval) :
  SendDaily.sign_params "" p = Raise RuntimeError.
Proof. reflexivity. Qed.

Lemma send_sign_returns (secret : string) (p : gmap string pyval) :
  secret ≠ "" → ∃ token, SendDaily.sign_params secret p = Ok token.
Proof.
  intros Hs. unfold SendDaily.sign_params.
  apply String.eqb_neq in Hs. rewrite Hs. by eexists.
Qed.





(** C6 (empty secret), on [lib/signing.py].  The library signer has no
    check of the secret: with the empty secret it returns the HMAC token
    keyed by the empty key.  The sender's signer raises there
    ([send_sign_empty_secret]). *)
Theorem signing_accepts_empty_secret :
  Signing.sign_params {[ "u" := PStr "a" ]} ""
    = "Lj3XN2_Ib3xUYI5w6Zg9yTDOFgcw2DB_nnK8nS20k40"
  ∧ SendDaily.sign_params "" {[ "u" := PStr "a" ]} = Raise RuntimeError.
Proof. split; vm_compute; reflexivity. Qed.

(** C10 (the two signers agree).  For a mapping without the key ["t"] and
    a non-empty secret, the sender's signer returns the token of the
    library signer. *)
Theorem signers_agree (p : gmap string pyval) (secret : string) :
  p !! "t" = None →
  secret ≠ "" →
  SendDaily.sign_params secret p = Ok (Signing.sign_params p secret).
Proof.
  intros Ht Hs. unfold SendDaily.sign_params, Signing.sign_params.
  apply String.eqb_neq in Hs. rewrite Hs.
  by rewrite canonical_agree.
Qed.

Lemma signers_agree_witness :
  let p : gmap string pyval :=
    {[ "u" := PStr "ana maria"; "d" := PStr "2024-03-01";
       "ex" := PStr "ALL"; "ts" := PInt 1709300000 ]} in
  p !! "t" = None
  ∧ "secret" ≠ ""
  ∧ SendDaily.sign_params "secret" p = Ok (Signing.sign_params p "secret").
Proof.
  intros p.
  assert (H1 : p !! "t" = None) by reflexivity.
  assert (H2 : "secret" ≠ "") by discriminate.
  exact (conj H1 (conj H2 (signers_agree p "secret" H1 H2))).
Defined.

(** ** Claims about the plan selector *)

Lemma scheduled_rest fs today d sched :
  schedule_json fs = Some sched →
  Calendar.fromisoformat today = Ok d →
  SendDaily.is_rest_entry (sched !! Calendar.strftime_A d) = true →
  SendDaily.pick_scheduled_split_or_rest fs today
  = Ok (SendDaily.Rest "Rest Day" SendDaily.rest_message).
Proof.
  intros Hfs Hd Hrest. unfold SendDaily.pick_scheduled_split_or_rest.
  rewrite Hfs, Hd. cbn [res_bind]. by rewrite Hrest.
Qed.

(** C7 (rest day).  When [config/schedule.json] exists and its entry for
    today's weekday is [null], a blank string or the token ["rest"] in any
    letter case, [pick_split_for_today] returns the tagged rest-day value,
    which carries no exercises, and the schedule store is left exactly as
    it was: the scheduler, which writes the user's record on every call, is
    not run. *)
Theorem rest_day_frame fs username today d sched entry st :
  schedule_json fs = Some sched →
  Calendar.fromisoformat today = Ok d →
  sched !! Calendar.strftime_A d = Some entry →
  entry = JNull
  ∨ (∃ e, entry = JStr e ∧
          (Str.strip e = "" ∨ Str.lower (Str.strip e) = "rest")) →
  ∃ r, SendDaily.pick_split_for_today fs username today st = (Ok r, st)
       ∧ r = RestDay "Rest Day" SendDaily.rest_message
       ∧ is_rest_day r = true
       ∧ day_exercises r = [].
Proof.
  intros Hfs Hd Hentry Hrest.
  assert (Hr : SendDaily.is_rest_entry (sched !! Calendar.strftime_A d) = true).
  { rewrite Hentry. destruct Hrest as [-> | (e & -> & [He | He])]; simpl.
    - done.
    - by rewrite He.
    - rewrite He. apply orb_true_r. }
  unfold SendDaily.pick_split_for_today, bind, lift.
  rewrite (scheduled_rest _ _ d sched) by done.
  by eexists.
Qed.

Lemma rest_day_frame_witness :
  let fs := mkfiles (Some {[ "Wednesday" := JStr "  " ]}) ∅ ∅ in
  let st : schedules :=
    {[ "ana" := mksched (Some 2) (Some "SKIPPED") (Some "2024-03-05") ]} in
  ∃ r, SendDaily.pick_split_for_today fs "ana" "2024-03-06" st = (Ok r, st)
       ∧ r = RestDay "Rest Day" SendDaily.rest_message
       ∧ is_rest_day r = true
       ∧ day_exercises r = [].
Proof.
  intros fs st.
  refine (rest_day_frame fs "ana" "2024-03-06" (Calendar.mkdate 2024 3 6)
            {[ "Wednesday" := JStr "  " ]} (JStr "  ") st _ _ _ _).
  - reflexivity.
  - reflexivity.
  - reflexivity.
  - right. exists "  ". split; [reflexivity|]. left. reflexivity.
Defined.

(** The token is recognised in any letter case and with blanks around it,
    and a [null] entry is a rest day as well. *)
Example rest_token_any_case :
  SendDaily.is_rest_entry (Some (JStr " ReSt ")) = true
  ∧ SendDaily.is_rest_entry (Some (JStr "REST")) = true
  ∧ SendDaily.is_rest_entry (Some (JStr "")) = true
  ∧ SendDaily.is_rest_entry (Some JNull) = true
  ∧ SendDaily.is_rest_entry (Some (JStr "Push_Day.json")) = false
  ∧ SendDaily.is_rest_entry (Some (JNum 3)) = false.
Proof. repeat split; reflexivity. Qed.

(** C8 (malformed override).  When [config/schedule.json] exists and its
    entry for today's weekday is present and is neither [null] nor a
    string, [pick_split_for_today] raises [ValueError] (the configuration
    error of this code) and the schedule store is unchanged. *)
Theorem malformed_override_fatal fs username today d sched entry st :
  schedule_json fs = Some sched →
  Calendar.fromisoformat today = Ok d →
  sched !! Calendar.strftime_A d = Some entry →
  entry ≠ JNull →
  (∀ e, entry ≠ JStr e) →
  SendDaily.pick_split_for_today fs username today st = (Raise ValueError, st).
Proof.
  intros Hfs Hd Hentry Hnull Hstr.
  unfold SendDaily.pick_split_for_today, bind, lift,
    SendDaily.pick_scheduled_split_or_rest.
  rewrite Hfs, Hd. cbn [res_bind]. rewrite Hentry.
  destruct entry as [|b|n|e|l|l]; try done.
  by destruct (Hstr e).
Qed.

Lemma malformed_override_fatal_witness :
  let fs := mkfiles (Some {[ "Wednesday" := JNum 3 ]}) ∅ ∅ in
  let st : schedules :=
    {[ "ana" := mksched (Some 2) (Some "SKIPPED") (Some "2024-03-05") ]} in
  SendDaily.pick_split_for_today fs "ana" "2024-03-06" st
  = (Raise ValueError, st).
Proof.
  intros fs st.
  refine (malformed_override_fatal fs "ana" "2024-03-06"
            (Calendar.mkdate 2024 3 6) {[ "Wednesday" := JNum 3 ]}
            (JNum 3) st _ _ _ _ _).
  - reflexivity.
  - reflexivity.
  - reflexivity.
  - discriminate.
  - intros e. discriminate.
Defined.

(** Without [config/schedule.json] the selector falls through to the
    rotation and the scheduler does write the store. *)
Example no_schedule_rotates :
  let fs := mkfiles None {[ "Pull_Day.json" := mksplit "Pull Day" [] ]} ∅ in
  SendDaily.pick_split_for_today fs "ana" "2024-03-06" ∅
  = (Ok (SplitDay (mksplit "Pull Day" [])),
     {[ "ana" := mksched (Some 1) (Some "NONE") (Some "2024-03-06") ]}).
Proof. vm_compute. reflexivity. Qed.


(** An existing [config/schedule.json] without a key for today's weekday
    is a rest day too: [sched.get(weekday)] is [None]. *)
Example absent_weekday_is_rest :
  let fs := mkfiles (Some {[ "Monday" := JStr "Push_Day.json" ]}) ∅ ∅ in
  SendDaily.pick_split_for_today fs "ana" "2024-03-06" ∅
  = (Ok (RestDay "Rest Day" SendDaily.rest_message), ∅).
Proof. vm_compute. reflexivity. Qed.

(** A custom plan with exercises replaces the content of the day, and the
    scheduler still runs. *)
Example custom_plan_still_rotates :
  let bench := mkexercise (Some "bench") (Some "Bench Press") (Some 3)
                 (Some "8-10") in
  let row := mkexercise (Some "row") (Some "Row") None None in
  let fs := mkfiles None ∅
              {[ ("ana", "2024-03-06")
                   := mkcustom (Some "Hotel gym") (Some [bench; row]) ]} in
  let st : schedules :=
    {[ "ana" := mksched (Some 4) (Some "COMPLETED") (Some "2024-03-05") ]} in
  SendDaily.pick_split_for_today fs "ana" "2024-03-06" st
  = (Ok (SplitDay (mksplit "Hotel gym" [bench; row])),
     {[ "ana" := mksched (Some 0) (Some "COMPLETED") (Some "2024-03-06") ]}).
Proof. vm_compute. reflexivity. Qed.

(** The sender's scheduler over three days: a skip recorded on 2024-03-01
    freezes the index on 2024-03-02, and, with nothing recorded in between,
    on 2024-03-03 as well, since the stored ["SKIPPED"] is written back
    with the new date. *)
Example send_skip_over_three_days :
  let st1 : schedules :=
    {[ "ana" := mksched (Some 2) (Some "SKIPPED") (Some "2024-03-01") ]} in
  let r2 := SendDaily.pick_today_index "ana" "2024-03-02" 5 st1 in
  let r3 := SendDaily.pick_today_index "ana" "2024-03-03" 5 r2.2 in
  r2 = (Ok 2,
        {[ "ana" := mksched (Some 2) (Some "SKIPPED") (Some "2024-03-02") ]})
  ∧ r3 = (Ok 2,
        {[ "ana" := mksched (Some 2) (Some "SKIPPED") (Some "2024-03-03") ]}).
Proof. split; vm_compute; reflexivity. Qed.

(** * Further properties of the code *)

(** ** Every outcome of one scheduler call *)

Lemma plans_outcome username today total st :
  (∃ e, Calendar.yesterday_iso today = Raise e
        ∧ Plans.pick_today_index username today total st = (Raise e, st))
  ∨ (∃ i, Plans.pick_today_index username today total st
          = (Ok i, <[username := mksched (Some i) (Some "NONE") (Some today)]>
                     st)
          ∧ 0 ≤ i < Z.max 1 total).
Proof.
  destruct (Calendar.yesterday_iso today) as [yd|e] eqn:Hyd.
  - right. rewrite (plans_run _ _ yd) by done. cbn zeta.
    eexists. split; [done|].
    destruct (Plans.freeze _ _ _); apply Z.mod_pos_bound; lia.
  - left. exists e. split; [done|]. by apply plans_run_raise.
Qed.

Lemma send_outcome username today total st :
  (∃ e, Calendar.yesterday_iso today = Raise e
        ∧ last_action_date (stored st username) ≠ Some today
        ∧ SendDaily.pick_today_index username today total st = (Raise e, st))
  ∨ (∃ i, SendDaily.pick_today_index username today total st
          = (Ok i, <[username := mksched (Some i)
                      (Some (get (last_action (stored st username)) "NONE"))
                      (Some today)]> st)
          ∧ 0 ≤ i < Z.max 1 total).
Proof.
  destruct (decide (last_action_date (stored st username) = Some today))
    as [Hd|Hd].
  - right. rewrite send_run_same_day by done. cbn zeta.
    eexists. split; [done|]. apply Z.mod_pos_bound; lia.
  - destruct (Calendar.yesterday_iso today) as [yd|e] eqn:Hyd.
    + right. rewrite (send_run_new_day _ _ yd) by done. cbn zeta.
      eexists. split; [done|].
      destruct (SendDaily.freeze _ _ _); apply Z.mod_pos_bound; lia.
    + left. exists e. split; [done|]. split; [done|].
      by apply send_run_raise.
Qed.

(** X2. On a day already recorded the sender's scheduler does not parse
    [today]: for any string [today] equal to the stored
    [last_action_date], it returns the stored index reduced modulo
    [max(1, total)], and the user's record holds that index, the stored
    [last_action] and [today]. *)
Theorem send_same_day_unparsed username today total st :
  last_action_date (stored st username) = Some today →
  let s := stored st username in
  let r := SendDaily.pick_today_index username today total st in
  r.1 = Ok (reduced s total)
  ∧ stored r.2 username
    = mksched (Some (reduced s total)) (Some (get (last_action s) "NONE"))
        (Some today).
Proof.
  intros Hd s r. subst s r. rewrite send_run_same_day by done. cbn zeta.
  cbn [fst snd]. by rewrite stored_insert.
Qed.

Lemma send_same_day_unparsed_witness :
  let st : schedules :=
    {[ "ana" := mksched (Some 7) (Some "SKIPPED") (Some "3/1/2024") ]} in
  last_action_date (stored st "ana") = Some "3/1/2024"
  ∧ (SendDaily.pick_today_index "ana" "3/1/2024" 5 st).1 = Ok 2
  ∧ stored (SendDaily.pick_today_index "ana" "3/1/2024" 5 st).2 "ana"
    = mksched (Some 2) (Some "SKIPPED") (Some "3/1/2024").
Proof.
  intros st.
  assert (H : last_action_date (stored st "ana") = Some "3/1/2024")
    by reflexivity.
  exact (conj H (send_same_day_unparsed "ana" "3/1/2024" 5 st H)).
Defined.

(** ** Several calls in a row *)

Lemma run_days_cons pick username total d ds st :
  run_days pick username total (d :: ds) st
  = match pick username d total st with
    | (Ok i, st1) =>
        match run_days pick username total ds st1 with
        | (Ok later, st2) => (Ok (i :: later), st2)
        | (Raise e, st2) => (Raise e, st2)
        end
    | (Raise e, st1) => (Raise e, st1)
    end.
Proof.
  cbn [run_days]. unfold bind, ret.
  destruct (pick username d total st) as [[i|e] st1]; [|done].
  by destruct (run_days pick username total ds st1) as [[later|e] st2].
Qed.

Lemma plans_days_indices username total days st k la ld :
  1 ≤ total →
  stored st username = mksched (Some k) (Some la) ld →
  la ≠ "SKIPPED" →
  Forall has_yesterday days →
  (run_days Plans.pick_today_index username total days st).1
  = Ok (imap (λ j _, (k + Z.of_nat j + 1) mod total) days).
Proof.
  intros Hpos Hs Hla Hdays. revert st k la ld Hs Hla.
  induction Hdays as [|d ds [yd Hyd] _ IH]; intros st k la ld Hs Hla; [done|].
  rewrite run_days_cons, (plans_run _ _ yd) by done. cbn zeta.
  rewrite Hs. cbn [get last_action last_action_date].
  assert (Plans.freeze la ld yd = false) as ->.
  { unfold Plans.freeze. apply String.eqb_neq in Hla. by rewrite Hla. }
  rewrite advance_reduced by done.
  specialize (IH (<[username := mksched (Some ((k + 1) mod total))
                      (Some "NONE") (Some d)]> st)
                 ((k + 1) mod total) "NONE" (Some d)).
  rewrite stored_insert in IH. specialize (IH eq_refl ltac:(discriminate)).
  destruct (run_days _ _ _ ds _) as [[later|e] st2]; simplify_eq/=.
  f_equal. f_equal; [f_equal; lia|].
  apply imap_ext. intros j d' _. simpl.
  replace ((k + 1) mod total + Z.of_nat j + 1)
    with ((k + 1) mod total + (Z.of_nat j + 1)) by lia.
  rewrite Z.add_mod_idemp_l by lia. f_equal. lia.
Qed.

Lemma send_days_indices username total days st k la ld :
  1 ≤ total →
  stored st username = mksched (Some k) (Some la) ld →
  la ≠ "SKIPPED" →
  Forall has_yesterday days →
  fresh_days ld days →
  (run_days SendDaily.pick_today_index username total days st).1
  = Ok (imap (λ j _, (k + Z.of_nat j + 1) mod total) days).
Proof.
  intros Hpos Hs Hla Hdays. revert st k ld Hs.
  induction Hdays as [|d ds [yd Hyd] _ IH]; intros st k ld Hs Hfresh; [done|].
  destruct Hfresh as [Hd Hfresh].
  rewrite run_days_cons, (send_run_new_day _ _ yd) by (by rewrite ?Hs).
  cbn zeta. rewrite Hs. cbn [get last_action last_action_date].
  assert (SendDaily.freeze la ld yd = false) as ->.
  { unfold SendDaily.freeze. apply String.eqb_neq in Hla. by rewrite Hla. }
  rewrite advance_reduced by done.
  specialize (IH (<[username := mksched (Some ((k + 1) mod total))
                      (Some la) (Some d)]> st)
                 ((k + 1) mod total) (Some d)).
  rewrite stored_insert in IH. specialize (IH eq_refl Hfresh).
  destruct (run_days _ _ _ ds _) as [[later|e] st2]; simplify_eq/=.
  f_equal. f_equal; [f_equal; lia|].
  apply imap_ext. intros j d' _. simpl.
  replace ((k + 1) mod total + Z.of_nat j + 1)
    with ((k + 1) mod total + (Z.of_nat j + 1)) by lia.
  rewrite Z.add_mod_idemp_l by lia. f_equal. lia.
Qed.

(** X3. The library scheduler advances on every call: from a record whose
    [last_action] is not ["SKIPPED"], the calls for a list of days return
    [k + 1], [k + 2], ... modulo [total], also when a day is repeated. *)
Theorem plans_run_days username total days st k la ld :
  1 ≤ total →
  stored st username = mksched (Some k) (Some la) ld →
  la ≠ "SKIPPED" →
  Forall has_yesterday days →
  (run_days Plans.pick_today_index username total days st).1
  = Ok (imap (λ j _, (k + Z.of_nat j + 1) mod total) days).
Proof. apply plans_days_indices. Qed.

Lemma plans_run_days_witness :
  let st : schedules :=
    {[ "ana" := mksched (Some 1) (Some "COMPLETED") (Some "2024-02-28") ]} in
  let days := [ "2024-02-29"; "2024-02-29"; "2024-03-01"; "2024-03-04" ] in
  (run_days Plans.pick_today_index "ana" 3 days st).1 = Ok [2; 0; 1; 2].
Proof.
  intros st days.
  refine (plans_run_days "ana" 3 days st 1 "COMPLETED" (Some "2024-02-28")
            _ _ _ _).
  - lia.
  - reflexivity.
  - discriminate.
  - repeat constructor; eexists; reflexivity.
Defined.

(** X4. From a record whose [last_action] is not ["SKIPPED"], over days
    none of which repeats the day recorded just before it, the two
    schedulers return the same indices. *)
Theorem schedulers_agree_without_skips username total days st k la ld :
  1 ≤ total →
  stored st username = mksched (Some k) (Some la) ld →
  la ≠ "SKIPPED" →
  Forall has_yesterday days →
  fresh_days ld days →
  (run_days SendDaily.pick_today_index username total days st).1
  = (run_days Plans.pick_today_index username total days st).1.
Proof.
  intros Hpos Hs Hla Hdays Hfresh.
  rewrite (send_days_indices _ _ _ _ k la ld) by done.
  by rewrite (plans_days_indices _ _ _ _ k la ld).
Qed.

Lemma schedulers_agree_without_skips_witness :
  let st : schedules :=
    {[ "ana" := mksched (Some 1) (Some "COMPLETED") (Some "2024-02-28") ]} in
  let days := [ "2024-02-29"; "2024-03-01"; "2024-03-04" ] in
  (run_days SendDaily.pick_today_index "ana" 3 days st).1
  = (run_days Plans.pick_today_index "ana" 3 days st).1.
Proof.
  intros st days.
  refine (schedulers_agree_without_skips "ana" 3 days st 1 "COMPLETED"
            (Some "2024-02-28") _ _ _ _ _).
  - lia.
  - reflexivity.
  - discriminate.
  - repeat constructor; eexists; reflexivity.
  - repeat split; discriminate.
Defined.

Lemma last_cons_default {A} (x : A) (l : list A) (d d' : A) :
  List.last (x :: l) d = List.last (x :: l) d'.
Proof.
  revert x. induction l as [|y l IH]; intros x; [done|].
  change (List.last (y :: l) d = List.last (y :: l) d'). apply IH.
Qed.

(** X5. A skip that nothing overwrites freezes the sender's rotation on
    every following day. *)
Theorem send_skip_freezes username total days st k d0 :
  stored st username = mksched (Some k) (Some "SKIPPED") (Some d0) →
  0 ≤ k < total →
  consecutive d0 days →
  ∃ st',
    run_days SendDaily.pick_today_index username total days st
    = (Ok (replicate (length days) k), st')
    ∧ stored st' username
      = mksched (Some k) (Some "SKIPPED") (Some (List.last days d0)).
Proof.
  intros Hs Hk. revert st d0 Hs.
  induction days as [|d ds IH]; intros st d0 Hs Hdays.
  { by exists st. }
  destruct Hdays as [Hyd Hdays].
  rewrite run_days_cons.
  assert (Hcall : SendDaily.pick_today_index username d total st
                  = (Ok k, <[username := mksched (Some k) (Some "SKIPPED")
                                           (Some d)]> st)).
  { destruct (decide (Some d0 = Some d)) as [Heq|Hne].
    - rewrite send_run_same_day by (by rewrite Hs).
      cbn zeta. rewrite Hs. cbn [get last_action].
      by rewrite (reduced_small k _ _ total).
    - rewrite (send_run_new_day _ _ d0) by (by rewrite ?Hs).
      cbn zeta. rewrite Hs. cbn [get last_action last_action_date].
      assert (SendDaily.freeze "SKIPPED" (Some d0) d0 = true) as ->
        by (by apply send_freeze_spec).
      by rewrite (reduced_small k _ _ total). }
  rewrite Hcall.
  destruct (IH (<[username := mksched (Some k) (Some "SKIPPED") (Some d)]> st)
              d) as (st' & -> & Hst'); [by rewrite stored_insert | done |].
  exists st'. split; [done|]. rewrite Hst'. do 2 f_equal.
  destruct ds as [|x l]; [done|].
  change (List.last (x :: l) d = List.last (x :: l) d0).
  apply last_cons_default.
Qed.

Lemma send_skip_freezes_witness :
  let st : schedules :=
    {[ "ana" := mksched (Some 2) (Some "SKIPPED") (Some "2024-02-28") ]} in
  let days := [ "2024-02-29"; "2024-03-01"; "2024-03-02" ] in
  ∃ st',
    run_days SendDaily.pick_today_index "ana" 5 days st
    = (Ok (replicate (length days) 2), st')
    ∧ stored st' "ana"
      = mksched (Some 2) (Some "SKIPPED") (Some (List.last days "2024-02-28")).
Proof.
  intros st days.
  refine (send_skip_freezes "ana" 5 days st 2 "2024-02-28" _ _ _).
  - reflexivity.
  - lia.
  - repeat split; reflexivity.
Defined.

Ltac each_byte c := destruct c as [[] [] [] [] [] [] [] []].

Lemma app_cons c s1 s2 : String c s1 +:+ s2 = String c (s1 +:+ s2).
Proof. reflexivity. Qed.

Lemma app_nil_l s : "" +:+ s = s.
Proof. reflexivity. Qed.

Lemma map_app f s1 s2 : Str.map f (s1 +:+ s2) = Str.map f s1 +:+ Str.map f s2.
Proof.
  induction s1 as [|c s1 IH]; [done|].
  rewrite app_cons. cbn [Str.map]. by rewrite IH.
Qed.

Lemma all_chars_app p s1 s2 :
  all_chars p (s1 +:+ s2) = all_chars p s1 && all_chars p s2.
Proof.
  induction s1 as [|c s1 IH]; [done|].
  rewrite app_cons. cbn [all_chars]. by rewrite IH, andb_assoc.
Qed.

Lemma mem_app c s1 s2 : Str.mem c (s1 +:+ s2) = Str.mem c s1 || Str.mem c s2.
Proof.
  induction s1 as [|d s1 IH]; [done|].
  rewrite app_cons. cbn [Str.mem]. by rewrite IH, orb_assoc.
Qed.

Lemma quote_byte_no_space c :
  Ascii.eqb " " c = false → Urllib.quote_byte "" c = plus_byte c.
Proof. each_byte c; intros H; try reflexivity; discriminate H. Qed.

Lemma quote_byte_space c :
  Str.replace_char " " "+" (Urllib.quote_byte " " c) = plus_byte c.
Proof. each_byte c; reflexivity. Qed.

Lemma quote_plus_each s : Urllib.quote_plus s "" = encode_each plus_byte s.
Proof.
  unfold Urllib.quote_plus. destruct (Str.mem " " s) eqn:Hsp.
  - clear Hsp. change ("" +:+ " ") with " ".
    induction s as [|c s IH]; [done|].
    cbn [Urllib.quote encode_each]. unfold Str.replace_char in *.
    by rewrite map_app, IH, <- quote_byte_space.
  - induction s as [|c s IH]; [done|].
    cbn [Str.mem] in Hsp. apply orb_false_elim in Hsp as [Hc Hs].
    cbn [Urllib.quote encode_each]. by rewrite IH, quote_byte_no_space.
Qed.

Lemma plus_byte_url_chars c : all_chars url_char (plus_byte c) = true.
Proof. each_byte c; reflexivity. Qed.

Lemma url_char_not_reserved c :
  url_char c = true →
  Ascii.eqb "&" c = false ∧ Ascii.eqb "=" c = false ∧ Ascii.eqb " " c = false.
Proof. each_byte c; intros H; try discriminate H; done. Qed.

Lemma all_chars_mem p s c :
  all_chars p s = true → Str.mem c s = true → p c = true.
Proof.
  induction s as [|d s IH]; cbn; [done|].
  intros [Hd Hs]%andb_true_iff [Hc|Hc]%orb_true_iff; [|by apply IH].
  by apply Ascii.eqb_eq in Hc as ->.
Qed.

Lemma mem_false_of_all p s c :
  all_chars p s = true → p c = false → Str.mem c s = false.
Proof.
  intros Hall Hc. destruct (Str.mem c s) eqn:Hm; [|done].
  by rewrite (all_chars_mem p s c Hall Hm) in Hc.
Qed.

Lemma encode_each_url_chars s :
  all_chars url_char (encode_each plus_byte s) = true.
Proof.
  induction s as [|c s IH]; [done|]. cbn [encode_each].
  by rewrite all_chars_app, plus_byte_url_chars, IH.
Qed.

(** X6. [quote_plus(s, safe="")] encodes byte by byte: an unreserved
    character stays, a space becomes [+], any other byte becomes [%XX].
    Its output holds only unreserved characters, [%] and [+], so never
    [&], [=] or a space. *)
Theorem quote_plus_alphabet s :
  Urllib.quote_plus s "" = encode_each plus_byte s
  ∧ all_chars url_char (Urllib.quote_plus s "") = true
  ∧ Str.mem "&" (Urllib.quote_plus s "") = false
  ∧ Str.mem "=" (Urllib.quote_plus s "") = false
  ∧ Str.mem " " (Urllib.quote_plus s "") = false.
Proof.
  rewrite quote_plus_each. pose proof (encode_each_url_chars s) as Hall.
  repeat split; try done; by eapply mem_false_of_all.
Qed.

Lemma unquote_plus_byte c r :
  unquote_plus (plus_byte c +:+ r) = String c (unquote_plus r).
Proof. each_byte c; reflexivity. Qed.

Lemma unquote_plus_encode s : unquote_plus (encode_each plus_byte s) = s.
Proof.
  induction s as [|c s IH]; [done|]. cbn [encode_each].
  by rewrite unquote_plus_byte, IH.
Qed.

Lemma quote_plus_injective s1 s2 :
  Urllib.quote_plus s1 "" = Urllib.quote_plus s2 "" → s1 = s2.
Proof.
  rewrite !quote_plus_each. intros H.
  by rewrite <- (unquote_plus_encode s1), H, unquote_plus_encode.
Qed.

(** X7. [quote_plus(s, safe="")] sends different values to different
    encodings. *)
Theorem quote_plus_inj s1 s2 :
  s1 ≠ s2 → Urllib.quote_plus s1 "" ≠ Urllib.quote_plus s2 "".
Proof. intros Hne H. by apply Hne, quote_plus_injective. Qed.

Lemma quote_plus_inj_witness :
  "a b" ≠ "a+b"
  ∧ Urllib.quote_plus "a b" "" = "a+b"
  ∧ Urllib.quote_plus "a+b" "" = "a%2Bb"
  ∧ Urllib.quote_plus "a b" "" ≠ Urllib.quote_plus "a+b" "".
Proof.
  assert (H : "a b" ≠ "a+b") by discriminate.
  exact (conj H (conj eq_refl (conj eq_refl (quote_plus_inj "a b" "a+b" H)))).
Defined.

(** ** The shape of a token *)

Lemma round_length s kw : length (Sha256.round s kw) = length s.
Proof.
  destruct s as [|a [|b [|c [|d [|e [|f [|g [|h [|i s]]]]]]]]]; reflexivity.
Qed.

Lemma rounds_length l s : length (fold_left Sha256.round l s) = length s.
Proof.
  revert s. induction l as [|kw l IH]; intros s; [done|].
  cbn [fold_left]. by rewrite IH, round_length.
Qed.

Lemma compress_length h block : length (Sha256.compress h block) = length h.
Proof.
  unfold Sha256.compress. cbn zeta.
  rewrite length_zip_with, rounds_length. lia.
Qed.

Lemma blocks_length blocks h :
  length (fold_left Sha256.compress blocks h) = length h.
Proof.
  revert h. induction blocks as [|b bs IH]; intros h; [done|].
  cbn [fold_left]. by rewrite IH, compress_length.
Qed.

Lemma be_bytes_bytes n x : Forall is_byte (Sha256.be_bytes n x).
Proof.
  induction n as [|n IH]; cbn [Sha256.be_bytes]; constructor; [|done].
  unfold is_byte. change 255 with (Z.ones 8).
  rewrite Z.land_ones by lia. apply Z.mod_pos_bound. lia.
Qed.

Lemma be_bytes_length n x : length (Sha256.be_bytes n x) = n.
Proof. induction n as [|n IH]; cbn [Sha256.be_bytes length]; congruence. Qed.

Lemma words_bytes (ws : list Z) :
  length (mjoin (Sha256.be_bytes 4 <$> ws)) = (4 * length ws)%nat
  ∧ Forall is_byte (mjoin (Sha256.be_bytes 4 <$> ws)).
Proof.
  induction ws as [|w ws [IH1 IH2]]; [by split|].
  change (mjoin (Sha256.be_bytes 4 <$> w :: ws))
    with (Sha256.be_bytes 4 w ++ mjoin (Sha256.be_bytes 4 <$> ws)).
  split.
  - rewrite length_app, be_bytes_length, IH1. cbn [length]. lia.
  - apply Forall_app. split; [apply be_bytes_bytes | done].
Qed.

Lemma sha256_digest_bytes msg :
  length (Sha256.digest msg) = 32%nat ∧ Forall is_byte (Sha256.digest msg).
Proof.
  unfold Sha256.digest. cbn zeta.
  destruct (words_bytes (fold_left Sha256.compress
              (Sha256.chunks (length (Sha256.pad msg)) 64 (Sha256.pad msg))
              Sha256.initial_hash)) as [Hlen Hall].
  split; [|done]. rewrite Hlen, blocks_length. reflexivity.
Qed.

Lemma hmac_digest_bytes key msg :
  length (Hmac.digest key msg) = 32%nat ∧ Forall is_byte (Hmac.digest key msg).
Proof. unfold Hmac.digest. cbn zeta. apply sha256_digest_bytes. Qed.

Lemma sextet_b64_char n : 0 ≤ n < 64 → b64_char (Base64.sextet n) = true.
Proof.
  intros Hn. replace n with (Z.of_nat (Z.to_nat n)) by lia.
  assert (Hk : (Z.to_nat n < 64)%nat) by lia. revert Hk.
  generalize (Z.to_nat n) as k. intros k Hk.
  do 64 (destruct k as [|k]; [reflexivity|]). lia.
Qed.

Lemma b64_char_not_pad c : b64_char c = true → Ascii.eqb "=" c = false.
Proof. each_byte c; intros H; try discriminate H; done. Qed.

Lemma b64_char_safe c : b64_char c = true → Urllib.always_safe c = true.
Proof. each_byte c; intros H; try discriminate H; done. Qed.

Lemma length_app_string s1 s2 :
  String.length (s1 +:+ s2) = (String.length s1 + String.length s2)%nat.
Proof.
  induction s1 as [|c s1 IH]; [done|].
  rewrite app_cons. cbn [String.length]. by rewrite IH.
Qed.

(** The encoding is a run of alphabet characters followed by padding. *)
Lemma encode_shape fuel l :
  (length l ≤ fuel)%nat → Forall is_byte l →
  ∃ body pad,
    Base64.encode fuel l = body +:+ pad
    ∧ all_chars b64_char body = true
    ∧ all_chars (Ascii.eqb "=") pad = true
    ∧ Z.of_nat (String.length body) = (4 * Z.of_nat (length l) + 2) / 3.
Proof.
  revert l. induction fuel as [|fuel IH]; intros l Hlen Hall.
  { destruct l; [|cbn in Hlen; lia]. by exists "", "". }
  destruct l as [|a [|b [|c r]]].
  - by exists "", "".
  - apply Forall_cons in Hall as [Ha _]. unfold is_byte in Ha.
    eexists (String _ (String _ "")), "==". split; [reflexivity|].
    cbn [all_chars].
    rewrite !sextet_b64_char by (Z.div_mod_to_equations; lia). done.
  - apply Forall_cons in Hall as [Ha Hall].
    apply Forall_cons in Hall as [Hb _]. unfold is_byte in Ha, Hb.
    eexists (String _ (String _ (String _ ""))), "=". split; [reflexivity|].
    cbn [all_chars].
    rewrite !sextet_b64_char by (Z.div_mod_to_equations; lia). done.
  - apply Forall_cons in Hall as [Ha Hall].
    apply Forall_cons in Hall as [Hb Hall].
    apply Forall_cons in Hall as [Hc Hall]. unfold is_byte in Ha, Hb, Hc.
    destruct (IH r) as (body & pad & Henc & Hbody & Hpad & Hsize);
      [cbn [length] in Hlen; lia | done |].
    eexists (String _ (String _ (String _ (String _ body)))), pad.
    cbn [Base64.encode]. rewrite Henc. split; [reflexivity|].
    cbn [all_chars String.length].
    rewrite !sextet_b64_char by (Z.div_mod_to_equations; lia).
    split; [done|]. split; [done|].
    cbn [length]. Z.div_mod_to_equations. lia.
Qed.

Lemma rstrip_all p s : all_chars p s = true → Str.rstrip p s = "".
Proof.
  induction s as [|c s IH]; [done|]. cbn [all_chars Str.rstrip].
  intros [Hc Hs]%andb_true_iff. by rewrite IH, Hc.
Qed.

Lemma rstrip_app p body pad :
  all_chars (λ c, negb (p c)) body = true →
  all_chars p pad = true →
  Str.rstrip p (body +:+ pad) = body.
Proof.
  intros Hbody Hpad. induction body as [|c body IH].
  { rewrite app_nil_l. by apply rstrip_all. }
  rewrite app_cons. cbn [all_chars Str.rstrip] in *.
  apply andb_true_iff in Hbody as [Hc Hbody]. rewrite IH by done.
  apply negb_true_iff in Hc. rewrite Hc. by destruct body.
Qed.

Lemma all_chars_impl (p q : ascii → bool) s :
  (∀ c, p c = true → q c = true) →
  all_chars p s = true → all_chars q s = true.
Proof.
  intros Hpq. induction s as [|c s IH]; [done|]. cbn [all_chars].
  intros [Hc Hs]%andb_true_iff. by rewrite (Hpq c Hc), IH.
Qed.

Lemma encode_each_safe s :
  all_chars Urllib.always_safe s = true → encode_each plus_byte s = s.
Proof.
  induction s as [|c s IH]; [done|]. cbn [all_chars encode_each].
  intros [Hc Hs]%andb_true_iff. rewrite IH by done.
  unfold plus_byte. by rewrite Hc.
Qed.

(** The token made from a 32-byte digest. *)
Lemma token_shape mac :
  length mac = 32%nat → Forall is_byte mac →
  let t := strip_padding (Base64.urlsafe_b64encode mac) in
  String.length t = 43%nat
  ∧ all_chars b64_char t = true
  ∧ Urllib.quote_plus t "" = t.
Proof.
  intros Hlen Hall. cbn zeta. unfold strip_padding, Base64.urlsafe_b64encode.
  destruct (encode_shape (length mac) mac) as (body & pad & -> & Hb & Hp & Hs);
    [done..|].
  rewrite rstrip_app; [|by eapply all_chars_impl, Hb;
    intros c Hc; rewrite (b64_char_not_pad c Hc) | done].
  rewrite Hlen in Hs. change ((4 * Z.of_nat 32 + 2) / 3) with 43 in Hs.
  split; [lia|]. split; [done|].
  rewrite quote_plus_each. apply encode_each_safe.
  eapply all_chars_impl, Hb. apply b64_char_safe.
Qed.

(** X8. Every token of either signer is 43 characters of the URL-safe
    base64 alphabet, without padding, and [quote_plus] leaves it as it
    is. *)
Theorem sign_params_token_shape (p : gmap string pyval) (secret : string) :
  (let t := Signing.sign_params p secret in
   String.length t = 43%nat
   ∧ all_chars b64_char t = true
   ∧ Urllib.quote_plus t "" = t)
  ∧ (∀ t, SendDaily.sign_params secret p = Ok t →
          String.length t = 43%nat
          ∧ all_chars b64_char t = true
          ∧ SendDaily.quote_plus (PStr t) = t).
Proof.
  split.
  - unfold Signing.sign_params. cbn zeta.
    apply token_shape; apply hmac_digest_bytes.
  - unfold SendDaily.sign_params, SendDaily.b64url, SendDaily.quote_plus.
    destruct (String.eqb secret ""); [done|]. intros t [= <-].
    cbn [str]. apply token_shape; apply hmac_digest_bytes.
Qed.

Lemma sign_params_token_shape_witness :
  SendDaily.sign_params "secret" {[ "u" := PStr "a" ]}
    = Ok "2zTSBouh94DBmWyh8Q7hr24EvcetGDTFG4-x59MGZGE"
  ∧ String.length "2zTSBouh94DBmWyh8Q7hr24EvcetGDTFG4-x59MGZGE" = 43%nat
  ∧ all_chars b64_char "2zTSBouh94DBmWyh8Q7hr24EvcetGDTFG4-x59MGZGE" = true
  ∧ SendDaily.quote_plus (PStr "2zTSBouh94DBmWyh8Q7hr24EvcetGDTFG4-x59MGZGE")
    = "2zTSBouh94DBmWyh8Q7hr24EvcetGDTFG4-x59MGZGE".
Proof.
  assert (H : SendDaily.sign_params "secret" {[ "u" := PStr "a" ]}
              = Ok "2zTSBouh94DBmWyh8Q7hr24EvcetGDTFG4-x59MGZGE")
    by (vm_compute; reflexivity).
  exact (conj H (proj2 (sign_params_token_shape {[ "u" := PStr "a" ]} "secret")
                   _ H)).
Defined.

(** ** Keys are written as they are *)

Lemma app_assoc_string s1 s2 s3 : (s1 +:+ s2) +:+ s3 = s1 +:+ s2 +:+ s3.
Proof.
  induction s1 as [|c s1 IH]; [done|]. rewrite !app_cons. by rewrite IH.
Qed.

Lemma sorted_tuples_eq (l k : list (string * string)) :
  l ≡ₚ k → Sorted tuple_le k → sorted tuple_le l = k.
Proof.
  intros Hlk Hk. unfold sorted.
  apply (Sorted_unique tuple_le); [apply Sorted_merge_sort; apply _ | done |].
  by rewrite merge_sort_Permutation.
Qed.

Lemma signing_canonical_two k1 k2 (v1 v2 : pyval) :
  k1 ≠ "t" → k2 ≠ "t" → k1 ≠ k2 → String.le k1 k2 →
  Signing.canonical {[ k1 := v1; k2 := v2 ]}
  = k1 +:+ "=" +:+ Urllib.quote_plus (str v1) "" +:+ "&"
    +:+ k2 +:+ "=" +:+ Urllib.quote_plus (str v2) "".
Proof.
  intros H1 H2 Hne Hle. unfold Signing.canonical.
  rewrite items_no_t by (by rewrite lookup_insert_ne, lookup_singleton_ne).
  rewrite (sorted_tuples_eq _ [(k1, str v1); (k2, str v2)]).
  - cbn. by rewrite !app_assoc_string.
  - rewrite map_to_list_insert by (by rewrite lookup_singleton_ne).
    by rewrite map_to_list_singleton.
  - apply Sorted_cons; [apply Sorted_cons; constructor|].
    constructor. left. done.
Qed.

Lemma signing_canonical_one k (v : pyval) :
  k ≠ "t" →
  Signing.canonical {[ k := v ]} = k +:+ "=" +:+ Urllib.quote_plus (str v) "".
Proof.
  intros Hk. unfold Signing.canonical.
  rewrite items_no_t by (by rewrite lookup_singleton_ne).
  rewrite map_to_list_singleton.
  by rewrite (sorted_tuples_eq _ [(k, str v)])
    by (done || apply Sorted_cons; constructor).
Qed.

Lemma joined_key_not_t k1 q k2 : k1 +:+ "=" +:+ q +:+ "&" +:+ k2 ≠ "t".
Proof.
  intros H. apply (f_equal String.length) in H.
  rewrite !length_app_string in H. cbn in H. lia.
Qed.

(** X9. Keys are not escaped, so a key holding [=] and [&] can stand for
    two entries. *)
Theorem canonical_key_collision k1 k2 (v1 v2 : pyval) (secret : string) :
  k1 ≠ "t" → k2 ≠ "t" → k1 ≠ k2 → String.le k1 k2 →
  let k := k1 +:+ "=" +:+ Urllib.quote_plus (str v1) "" +:+ "&" +:+ k2 in
  ({[ k1 := v1; k2 := v2 ]} : gmap string pyval) ≠ {[ k := v2 ]}
  ∧ Signing.sign_params {[ k1 := v1; k2 := v2 ]} secret
    = Signing.sign_params {[ k := v2 ]} secret
  ∧ SendDaily.sign_params secret {[ k1 := v1; k2 := v2 ]}
    = SendDaily.sign_params secret {[ k := v2 ]}.
Proof.
  intros H1 H2 Hne Hle k.
  assert (Hk : k ≠ "t") by apply joined_key_not_t.
  assert (Hcan : Signing.canonical {[ k1 := v1; k2 := v2 ]}
                 = Signing.canonical {[ k := v2 ]}).
  { rewrite signing_canonical_two, signing_canonical_one by done.
    unfold k. by rewrite !app_assoc_string. }
  split; [|split].
  - intros Heq. apply (f_equal (λ m : gmap string pyval, size m)) in Heq.
    rewrite map_size_singleton in Heq.
    rewrite map_size_insert_None in Heq by (by rewrite lookup_singleton_ne).
    by rewrite map_size_singleton in Heq.
  - unfold Signing.sign_params. by rewrite Hcan.
  - unfold SendDaily.sign_params.
    rewrite <- !canonical_agree, Hcan;
      [done | by rewrite lookup_singleton_ne
            | by rewrite lookup_insert_ne, lookup_singleton_ne].
Qed.

Lemma canonical_key_collision_witness :
  "d" ≠ "t" ∧ "u" ≠ "t" ∧ "d" ≠ "u" ∧ String.le "d" "u"
  ∧ ({[ "d" := PStr "2024-03-01"; "u" := PStr "ana" ]} : gmap string pyval)
    ≠ {[ "d=2024-03-01&u" := PStr "ana" ]}
  ∧ Signing.sign_params {[ "d" := PStr "2024-03-01"; "u" := PStr "ana" ]}
      "secret"
    = Signing.sign_params {[ "d=2024-03-01&u" := PStr "ana" ]} "secret"
  ∧ SendDaily.sign_params "secret"
      {[ "d" := PStr "2024-03-01"; "u" := PStr "ana" ]}
    = SendDaily.sign_params "secret" {[ "d=2024-03-01&u" := PStr "ana" ]}.
Proof.
  assert (H1 : "d" ≠ "t") by discriminate.
  assert (H2 : "u" ≠ "t") by discriminate.
  assert (H3 : "d" ≠ "u") by discriminate.
  assert (H4 : String.le "d" "u") by (vm_compute; exact I).
  exact (conj H1 (conj H2 (conj H3 (conj H4
    (canonical_key_collision "d" "u" (PStr "2024-03-01") (PStr "ana")
       "secret" H1 H2 H3 H4))))).
Defined.

(** ** Signed links *)

Lemma dict_set_fresh k v (d : list (string * pyval)) :
  k ∉ d.*1 → SendDaily.dict_set k v d = d ++ [(k, v)].
Proof.
  induction d as [|[k' v'] d IH]; [done|]. csimpl.
  intros [Hk Hd]%not_elem_of_cons.
  apply String.eqb_neq in Hk. rewrite Hk. by rewrite IH.
Qed.

Lemma dict_set_lookup k v (d : list (string * pyval)) :
  (list_to_map (SendDaily.dict_set k v d) : gmap string pyval) !! k = Some v.
Proof.
  induction d as [|[k' v'] d IH]; csimpl.
  - by rewrite lookup_insert_eq.
  - destruct (String.eqb_spec k k') as [->|Hne]; csimpl.
    + by rewrite lookup_insert_eq.
    + by rewrite lookup_insert_ne.
Qed.

(** X10. For a non-empty secret and parameters without ["t"], the link of
    [build_signed_url] is the base, [?] (or [&] when the base already has
    a [?]), the parameters in their order as [key=quote_plus(value)], and
    last [t=] followed, unescaped, by the token the library signer gives
    for the same parameters. *)
Theorem build_signed_url_shape secret base (params : list (string * pyval)) :
  secret ≠ "" →
  "t" ∉ params.*1 →
  SendDaily.build_signed_url secret base params
  = Ok (base +:+ (if Str.mem "?" base then "&" else "?")
        +:+ String.concat "&"
              (((λ kv : string * pyval,
                   kv.1 +:+ "=" +:+ SendDaily.quote_plus kv.2) <$> params)
               ++ ["t=" +:+ Signing.sign_params (list_to_map params) secret])).
Proof.
  intros Hs Ht. unfold SendDaily.build_signed_url.
  assert (Hnone : (list_to_map params : gmap string pyval) !! "t" = None)
    by (by apply not_elem_of_list_to_map).
  assert (Hsign : SendDaily.sign_params secret (list_to_map params)
                  = Ok (Signing.sign_params (list_to_map params) secret)).
  { unfold SendDaily.sign_params, Signing.sign_params.
    apply String.eqb_neq in Hs. rewrite Hs. by rewrite canonical_agree. }
  rewrite Hsign. cbn [res_bind]. rewrite dict_set_fresh by done.
  rewrite fmap_app. cbn [fmap list_fmap fst snd].
  unfold SendDaily.quote_plus at 2. cbn [str].
  destruct (token_shape (Hmac.digest (Str.bytes secret)
              (Str.bytes (Signing.canonical (list_to_map params)))))
    as (_ & _ & Hq); [apply hmac_digest_bytes..|].
  unfold Signing.sign_params at 1. by rewrite Hq.
Qed.

Lemma build_signed_url_shape_witness :
  let params := [ ("u", PStr "ana maria"); ("d", PStr "2024-03-01");
                  ("ex", PStr "ALL"); ("ts", PInt 1709300000) ] in
  "secret" ≠ "" ∧ ("t" ∉ params.*1)
  ∧ SendDaily.build_signed_url "secret" "https://x.app/submit" params
    = Ok ("https://x.app/submit" +:+ "?"
          +:+ String.concat "&"
                (((λ kv : string * pyval,
                     kv.1 +:+ "=" +:+ SendDaily.quote_plus kv.2) <$> params)
                 ++ ["t=" +:+ Signing.sign_params (list_to_map params)
                                "secret"])).
Proof.
  intros params.
  assert (H1 : "secret" ≠ "") by discriminate.
  assert (H2 : "t" ∉ params.*1).
  { cbn. rewrite !not_elem_of_cons. repeat split; try discriminate.
    apply not_elem_of_nil. }
  exact (conj H1 (conj H2
    (build_signed_url_shape "secret" "https://x.app/submit" params H1 H2))).
Defined.

(** ** The selector with a weekly schedule file *)

Lemma scheduled_never_absent fs today sched :
  schedule_json fs = Some sched →
  SendDaily.pick_scheduled_split_or_rest fs today ≠ Ok SendDaily.NoSchedule.
Proof.
  intros Hfs. unfold SendDaily.pick_scheduled_split_or_rest. rewrite Hfs.
  destruct (Calendar.fromisoformat today) as [d|e]; cbn [res_bind]; [|done].
  destruct (SendDaily.is_rest_entry _); [done|].
  destruct (sched !! _) as [[| | |e| |]|]; try done.
  by destruct (splits_dir fs !! e).
Qed.

Lemma with_schedule_outcome fs sched username today st :
  schedule_json fs = Some sched →
  SendDaily.pick_split_for_today fs username today st
  = (match SendDaily.pick_scheduled_split_or_rest fs today with
     | Ok (SendDaily.Rest t m) => Ok (RestDay t m)
     | Ok (SendDaily.Split payload) => Ok (SplitDay payload)
     | Ok SendDaily.NoSchedule => Raise ValueError
     | Raise e => Raise e
     end, st).
Proof.
  intros Hfs. pose proof (scheduled_never_absent fs today sched Hfs) as Hne.
  unfold SendDaily.pick_split_for_today, bind, lift.
  by destruct (SendDaily.pick_scheduled_split_or_rest fs today) as [[| |]|].
Qed.

(** X11. With [config/schedule.json] in place, the selector leaves the
    schedule store alone, whatever the outcome, and answers the same for
    every user and store. *)
Theorem weekly_schedule_bypasses_store fs sched username today st :
  schedule_json fs = Some sched →
  (SendDaily.pick_split_for_today fs username today st).2 = st
  ∧ ∀ username' st',
      (SendDaily.pick_split_for_today fs username' today st').1
      = (SendDaily.pick_split_for_today fs username today st).1.
Proof.
  intros Hfs. split.
  - by rewrite (with_schedule_outcome _ sched).
  - intros username' st'. by rewrite !(with_schedule_outcome _ sched).
Qed.

Lemma weekly_schedule_bypasses_store_witness :
  let fs := mkfiles (Some {[ "Friday" := JStr "Missing.json" ]}) ∅ ∅ in
  let st : schedules :=
    {[ "ana" := mksched (Some 2) (Some "SKIPPED") (Some "2024-03-07") ]} in
  schedule_json fs = Some {[ "Friday" := JStr "Missing.json" ]}
  ∧ (SendDaily.pick_split_for_today fs "ana" "2024-03-08" st).2 = st
  ∧ ∀ username' st',
      (SendDaily.pick_split_for_today fs username' "2024-03-08" st').1
      = (SendDaily.pick_split_for_today fs "ana" "2024-03-08" st).1.
Proof.
  intros fs st.
  assert (H : schedule_json fs = Some {[ "Friday" := JStr "Missing.json" ]})
    by reflexivity.
  exact (conj H (weekly_schedule_bypasses_store fs _ "ana" "2024-03-08" st H)).
Defined.



(** ** The selector without a weekly schedule file *)

Lemma no_schedule fs today :
  schedule_json fs = None →
  SendDaily.pick_scheduled_split_or_rest fs today = Ok SendDaily.NoSchedule.
Proof.
  intros Hfs. unfold SendDaily.pick_scheduled_split_or_rest. by rewrite Hfs.
Qed.

(** X13. A custom plan with exercises is returned as it is, and the
    scheduler runs exactly as on a rotation day. *)
Theorem custom_plan_day fs username today plan e es st :
  schedule_json fs = None →
  Str.count "-" today = 2 →
  custom_plans fs !! (username, today) = Some plan →
  cp_exercises plan = Some (e :: es) →
  SendDaily.pick_split_for_today fs username today st
  = match SendDaily.pick_today_index username today 5 st with
    | (Ok _, st') =>
        (Ok (SplitDay (mksplit (get (cp_title plan) "Custom Session")
                               (e :: es))), st')
    | (Raise err, st') => (Raise err, st')
    end.
Proof.
  intros Hfs Hcount Hplan Hex.
  unfold SendDaily.pick_split_for_today, bind, lift, ret.
  rewrite no_schedule by done.
  unfold SendDaily.load_custom_plan_for_today.
  rewrite Hcount, Hplan, Hex. change (2 =? 2) with true.
  cbn [negb get exercises]. rewrite bool_decide_eq_false_2 by done.
  change (Z.of_nat (length SendDaily.DEFAULT_ROTATION_TITLES)) with 5.
  by destruct (SendDaily.pick_today_index username today 5 st) as [[i|err] st'].
Qed.

Lemma custom_plan_day_witness :
  let bench := mkexercise (Some "bench") (Some "Bench Press") (Some 3)
                 (Some "8-10") in
  let row := mkexercise (Some "row") (Some "Row") None None in
  let plan := mkcustom None (Some [bench; row]) in
  let fs := mkfiles None ∅ {[ ("ana", "2024-03-06") := plan ]} in
  let st : schedules :=
    {[ "ana" := mksched (Some 4) (Some "SKIPPED") (Some "2024-03-05") ]} in
  SendDaily.pick_split_for_today fs "ana" "2024-03-06" st
  = (Ok (SplitDay (mksplit "Custom Session" [bench; row])),
     {[ "ana" := mksched (Some 4) (Some "SKIPPED") (Some "2024-03-06") ]}).
Proof.
  intros bench row plan fs st.
  rewrite (custom_plan_day fs "ana" "2024-03-06" plan bench [row] st)
    by reflexivity.
  vm_compute. reflexivity.
Defined.

Lemma rotation_title_defined i :
  0 ≤ i < 5 → is_Some (SendDaily.DEFAULT_ROTATION_TITLES !! Z.to_nat i).
Proof.
  intros Hi. assert (Hk : (Z.to_nat i < 5)%nat) by lia. revert Hk.
  generalize (Z.to_nat i) as k. intros k Hk.
  do 5 (destruct k as [|k]; [by eexists|]). lia.
Qed.

Lemma send_index_in_rotation username today st i st' :
  SendDaily.pick_today_index username today 5 st = (Ok i, st') → 0 ≤ i < 5.
Proof.
  intros H.
  destruct (send_outcome username today 5 st)
    as [(e & _ & _ & He) | (j & Hj & Hb)]; [congruence|].
  rewrite Hj in H. injection H as <- _. lia.
Qed.

Lemma fromisoformat_errors s e :
  Calendar.fromisoformat s = Raise e → e = ValueError.
Proof.
  unfold Calendar.fromisoformat. intros H.
  repeat case_match; simplify_eq; done.
Qed.

Lemma yesterday_iso_errors today e :
  Calendar.yesterday_iso today = Raise e →
  e = ValueError ∨ e = OverflowError.
Proof.
  unfold Calendar.yesterday_iso.
  destruct (Calendar.fromisoformat today) as [d|e'] eqn:Hd; cbn [res_bind].
  - unfold Calendar.sub_one_day. repeat case_match; intros [= <-]. by right.
  - intros [= <-]. left. by eapply fromisoformat_errors.
Qed.

Lemma send_pick_errors username today total st e st' :
  SendDaily.pick_today_index username today total st = (Raise e, st') →
  (e = ValueError ∨ e = OverflowError) ∧ st' = st.
Proof.
  intros H.
  destruct (send_outcome username today total st)
    as [(e' & He & _ & Hr) | (j & Hj & _)]; [|congruence].
  rewrite Hr in H. injection H as <- <-.
  split; [by eapply yesterday_iso_errors | done].
Qed.

Lemma scheduled_errors fs today e :
  SendDaily.pick_scheduled_split_or_rest fs today = Raise e →
  e = ValueError ∨ e = FileNotFoundError.
Proof.
  unfold SendDaily.pick_scheduled_split_or_rest.
  destruct (schedule_json fs) as [sched|]; [|done].
  destruct (Calendar.fromisoformat today) as [d|e'] eqn:Hd; cbn [res_bind].
  - destruct (SendDaily.is_rest_entry _); [done|].
    destruct (sched !! _) as [[| | |f| |]|]; try (intros [= <-]; by left).
    destruct (splits_dir fs !! f); [done|]. intros [= <-]. by right.
  - intros [= <-]. left. by eapply fromisoformat_errors.
Qed.

Lemma custom_plan_errors fs username today e :
  SendDaily.load_custom_plan_for_today fs username today = Raise e →
  e = ValueError.
Proof.
  unfold SendDaily.load_custom_plan_for_today.
  destruct (negb _); [by intros [= <-]|].
  by destruct (custom_plans fs !! _).
Qed.

Lemma default_split_errors fs t e :
  SendDaily.load_default_split_by_title fs t = Raise e →
  e = FileNotFoundError.
Proof.
  unfold SendDaily.load_default_split_by_title.
  repeat case_match; intros; simplify_eq; done.
Qed.

(** X14. The selector never raises [IndexError]: the index the scheduler
    returns for the five default titles always names one of them. *)
Theorem selector_no_index_error fs username today st :
  (SendDaily.pick_split_for_today fs username today st).1 ≠ Raise IndexError.
Proof.
  unfold SendDaily.pick_split_for_today, bind, lift, ret, raise.
  destruct (SendDaily.pick_scheduled_split_or_rest fs today) as [[| |]|err]
    eqn:Hsch; try done.
  2:{ intros [= ->]. apply scheduled_errors in Hsch. by destruct Hsch. }
  destruct (SendDaily.load_custom_plan_for_today fs username today)
    as [custom|err] eqn:Hc.
  2:{ intros [= ->]. by apply custom_plan_errors in Hc. }
  cbn zeta.
  change (Z.of_nat (length SendDaily.DEFAULT_ROTATION_TITLES)) with 5.
  destruct (match custom with
            | Some c => if bool_decide (exercises c = []) then None
                        else Some c
            | None => None
            end) as [c|];
    destruct (SendDaily.pick_today_index username today 5 st)
      as [[i|err] st'] eqn:Hpick; try done;
    try (intros [= ->]; apply send_pick_errors in Hpick as [[?|?] _]; done).
  destruct (rotation_title_defined i) as [t ->];
    [by eapply send_index_in_rotation|].
  cbn [fst].
  destruct (SendDaily.load_default_split_by_title fs t) as [sp|err] eqn:Hl;
    [done|].
  intros [= ->]. by apply default_split_errors in Hl.
Qed.

(** X15. With the five default files in place and no weekly schedule or
    custom plan, the selector returns the file of the title the scheduler
    picked. *)
Theorem default_rotation_day fs username today yd st :
  schedule_json fs = None →
  Str.count "-" today = 2 →
  custom_plans fs !! (username, today) = None →
  Calendar.yesterday_iso today = Ok yd →
  (∀ t fn, (t, fn) ∈ SendDaily.TITLE_TO_FILE → is_Some (splits_dir fs !! fn)) →
  ∃ i st' t fn sp,
    SendDaily.pick_today_index username today 5 st = (Ok i, st')
    ∧ SendDaily.DEFAULT_ROTATION_TITLES !! Z.to_nat i = Some t
    ∧ (t, fn) ∈ SendDaily.TITLE_TO_FILE
    ∧ splits_dir fs !! fn = Some sp
    ∧ SendDaily.pick_split_for_today fs username today st
      = (Ok (SplitDay sp), st').
Proof.
  intros Hfs Hcount Hplan Hyd Hfiles.
  destruct (send_outcome username today 5 st)
    as [(e & He & _ & _) | (i & Hi & Hb)]; [congruence|].
  assert (Hk : (Z.to_nat i < 5)%nat) by lia.
  assert (∃ t fn, SendDaily.DEFAULT_ROTATION_TITLES !! Z.to_nat i = Some t
                  ∧ (t, fn) ∈ SendDaily.TITLE_TO_FILE
                  ∧ SendDaily.assoc t SendDaily.TITLE_TO_FILE = Some fn)
    as (t & fn & Ht & Hin & Hassoc).
  { revert Hk. generalize (Z.to_nat i) as k. intros k Hk.
    do 5 (destruct k as [|k];
          [eexists _, _; split; [reflexivity|]; split;
           [|reflexivity]; apply list_elem_of_In; cbn; tauto|]).
    lia. }
  destruct (Hfiles t fn Hin) as [sp Hsp].
  eexists i, _, t, fn, sp. split; [exact Hi|]. split; [done|].
  split; [done|]. split; [done|].
  unfold SendDaily.pick_split_for_today, bind, lift, ret.
  rewrite no_schedule by done.
  unfold SendDaily.load_custom_plan_for_today.
  rewrite Hcount, Hplan. change (2 =? 2) with true. cbn [negb].
  change (Z.of_nat (length SendDaily.DEFAULT_ROTATION_TITLES)) with 5.
  rewrite Hi, Ht. unfold SendDaily.load_default_split_by_title.
  by rewrite Hassoc, Hsp.
Qed.

(** X16. Without a weekly schedule, a [today] that does not split into three
    parts at ["-"] is refused before the scheduler runs. *)
Theorem selector_bad_today fs username today st :
  schedule_json fs = None →
  Str.count "-" today ≠ 2 →
  SendDaily.pick_split_for_today fs username today st = (Raise ValueError, st).
Proof.
  intros Hfs Hcount.
  unfold SendDaily.pick_split_for_today, bind, lift.
  rewrite no_schedule by done.
  unfold SendDaily.load_custom_plan_for_today.
  apply Z.eqb_neq in Hcount. by rewrite Hcount.
Qed.

Lemma selector_bad_today_witness :
  let fs := mkfiles None ∅ ∅ in
  let st : schedules :=
    {[ "ana" := mksched (Some 2) (Some "NONE") (Some "2024-03-07") ]} in
  schedule_json fs = None ∧ Str.count "-" "2024/03/08" ≠ 2
  ∧ SendDaily.pick_split_for_today fs "ana" "2024/03/08" st
    = (Raise ValueError, st).
Proof.
  intros fs st.
  assert (H1 : schedule_json fs = None) by reflexivity.
  assert (H2 : Str.count "-" "2024/03/08" ≠ 2) by (vm_compute; discriminate).
  exact (conj H1 (conj H2 (selector_bad_today fs "ana" "2024/03/08" st H1 H2))).
Defined.

Lemma default_rotation_day_witness :
  let sp := λ t, mksplit t [] in
  let fs := mkfiles None
              {[ "Push_Day.json" := sp "Push Day";
                 "Pull_Day.json" := sp "Pull Day";
                 "Leg_plus_Abs_Day.json" := sp "Leg + Abs Day";
                 "Focus_Day.json" := sp "Focus Day";
                 "Full_Body_Power_Day.json" := sp "Full Body Power Day" ]}
              ∅ in
  let st : schedules :=
    {[ "ana" := mksched (Some 1) (Some "COMPLETED") (Some "2024-03-07") ]} in
  ∃ i st' t fn s,
    SendDaily.pick_today_index "ana" "2024-03-08" 5 st = (Ok i, st')
    ∧ SendDaily.DEFAULT_ROTATION_TITLES !! Z.to_nat i = Some t
    ∧ (t, fn) ∈ SendDaily.TITLE_TO_FILE
    ∧ splits_dir fs !! fn = Some s
    ∧ SendDaily.pick_split_for_today fs "ana" "2024-03-08" st
      = (Ok (SplitDay s), st').
Proof.
  intros sp fs st.
  refine (default_rotation_day fs "ana" "2024-03-08" "2024-03-07" st
            _ _ _ _ _); try reflexivity.
  intros t fn Hin. apply list_elem_of_In in Hin. cbn in Hin.
  destruct Hin as [[= <- <-]|[[= <- <-]|[[= <- <-]|[[= <- <-]|[[= <- <-]|[]]]]]];
    by eexists.
Defined.

(** X17. A custom plan without exercises counts as no custom plan. *)
Theorem empty_custom_plan_ignored fs username today plan st :
  custom_plans fs !! (username, today) = Some plan →
  cp_exercises plan = None ∨ cp_exercises plan = Some [] →
  SendDaily.pick_split_for_today fs username today st
  = SendDaily.pick_split_for_today
      (mkfiles (schedule_json fs) (splits_dir fs)
         (delete (username, today) (custom_plans fs)))
      username today st.
Proof.
  intros Hplan Hex.
  unfold SendDaily.pick_split_for_today, bind, lift.
  change (SendDaily.pick_scheduled_split_or_rest
            (mkfiles (schedule_json fs) (splits_dir fs)
               (delete (username, today) (custom_plans fs))) today)
    with (SendDaily.pick_scheduled_split_or_rest fs today).
  destruct (SendDaily.pick_scheduled_split_or_rest fs today) as [[| |]|];
    try done.
  unfold SendDaily.load_custom_plan_for_today. cbn [custom_plans].
  rewrite Hplan, lookup_delete_eq.
  destruct (negb _); [done|]. cbn zeta.
  assert (get (cp_exercises plan) [] = []) as ->
    by (by destruct Hex as [-> | ->]).
  done.
Qed.

Lemma empty_custom_plan_ignored_witness :
  let plan := mkcustom (Some "Hotel gym") (Some []) in
  let fs := mkfiles None {[ "Pull_Day.json" := mksplit "Pull Day" [] ]}
              {[ ("ana", "2024-03-06") := plan ]} in
  SendDaily.pick_split_for_today fs "ana" "2024-03-06" ∅
  = SendDaily.pick_split_for_today
      (mkfiles (schedule_json fs) (splits_dir fs)
         (delete ("ana", "2024-03-06") (custom_plans fs)))
      "ana" "2024-03-06" ∅.
Proof.
  intros plan fs.
  refine (empty_custom_plan_ignored fs "ana" "2024-03-06" plan ∅ _ _);
    [reflexivity | by right].
Defined.

Lemma slug_unfold s :
  SendDaily.slug s
  = Str.replace_dashes (Str.strip_char "-" (Str.map slug_map s)).
Proof. reflexivity. Qed.

Lemma plans_slug_eq s : Plans.slug s = SendDaily.slug s.
Proof. reflexivity. Qed.

Lemma slug_map_char c : slug_char (slug_map c) = true.
Proof. each_byte c; reflexivity. Qed.

Lemma all_chars_map p f s :
  (∀ c, p (f c) = true) → all_chars p (Str.map f s) = true.
Proof.
  intros Hf. induction s as [|c s IH]; [done|]. cbn [Str.map all_chars].
  by rewrite Hf, IH.
Qed.

Lemma all_chars_lstrip p q s :
  all_chars p s = true → all_chars p (Str.lstrip q s) = true.
Proof.
  induction s as [|c s IH]; [done|]. cbn [Str.lstrip].
  destruct (q c); [|done]. cbn [all_chars].
  intros [_ Hs]%andb_true_iff. by apply IH.
Qed.

Lemma all_chars_rstrip p q s :
  all_chars p s = true → all_chars p (Str.rstrip q s) = true.
Proof.
  induction s as [|c s IH]; [done|]. cbn [Str.rstrip all_chars].
  intros [Hc Hs]%andb_true_iff. specialize (IH Hs).
  destruct (Str.rstrip q s) as [|d r].
  - destruct (q c); [done|]. cbn [all_chars]. by rewrite Hc.
  - cbn [all_chars] in *. by rewrite Hc, IH.
Qed.

(** Induction over a string two characters at a time. *)
Lemma string_ind2 (P : string → Prop) :
  P "" →
  (∀ c, P (String c "")) →
  (∀ c d s, P s → P (String d s) → P (String c (String d s))) →
  ∀ s, P s.
Proof.
  intros H0 H1 H2 s.
  assert (P s ∧ ∀ c, P (String c s)) as [? _]; [|done].
  induction s as [|d s [IH1 IH2]]; [by split|].
  split; [apply IH2|]. intros c. by apply H2.
Qed.

Lemma replace_dashes_cons c d s :
  Str.replace_dashes (String c (String d s))
  = if Ascii.eqb c "-" && Ascii.eqb d "-"
    then String "-" (Str.replace_dashes s)
    else String c (Str.replace_dashes (String d s)).
Proof. each_byte c; try reflexivity. each_byte d; reflexivity. Qed.

Lemma replace_dashes_one c : Str.replace_dashes (String c "") = String c "".
Proof. each_byte c; reflexivity. Qed.

Lemma all_chars_replace_dashes p s :
  all_chars p s = true → all_chars p (Str.replace_dashes s) = true.
Proof.
  induction s as [|c|c d s IH1 IH2] using string_ind2; [done| |].
  - by rewrite replace_dashes_one.
  - rewrite replace_dashes_cons. cbn [all_chars].
    intros [Hc [Hd Hs]%andb_true_iff]%andb_true_iff.
    destruct (Ascii.eqb c "-" && Ascii.eqb d "-") eqn:Hcd.
    + apply andb_true_iff in Hcd as [->%Ascii.eqb_eq _].
      cbn [all_chars]. by rewrite Hc, IH1.
    + cbn [all_chars]. rewrite Hc, IH2; [done|].
      cbn [all_chars]. by rewrite Hd, Hs.
Qed.

Lemma slug_chars s : all_chars slug_char (SendDaily.slug s) = true.
Proof.
  rewrite slug_unfold. apply all_chars_replace_dashes.
  unfold Str.strip_char. apply all_chars_rstrip, all_chars_lstrip.
  apply all_chars_map, slug_map_char.
Qed.

(** ** Decimal numerals *)

Lemma pretty_N_char_digit d : (d < 10)%N → Str.isdigit (pretty_N_char d) = true.
Proof.
  intros Hd. replace d with (N.of_nat (N.to_nat d)) by lia.
  assert (Hk : (N.to_nat d < 10)%nat) by lia. revert Hk.
  generalize (N.to_nat d) as k. intros k Hk.
  do 10 (destruct k as [|k]; [reflexivity|]). lia.
Qed.

Lemma pretty_N_go_digits x s :
  all_chars Str.isdigit s = true →
  all_chars Str.isdigit (pretty_N_go x s) = true
  ∧ ((0 < x)%N → pretty_N_go x s ≠ "").
Proof.
  revert s. induction (N.lt_wf_0 x) as [x _ IH]. intros s Hs.
  destruct (decide (x = 0)%N) as [->|Hx].
  { rewrite pretty_N_go_0. split; [done | intros ?; lia]. }
  rewrite pretty_N_go_step by lia.
  destruct (decide (x `div` 10 = 0)%N) as [Hdiv|Hdiv].
  - rewrite Hdiv, pretty_N_go_0. cbn [all_chars].
    rewrite pretty_N_char_digit by (apply N.mod_lt; lia). by split.
  - destruct (IH (x `div` 10)%N) with
      (s := String (pretty_N_char (x `mod` 10)) s) as [H1 H2].
    + apply N.div_lt; lia.
    + cbn [all_chars].
      by rewrite pretty_N_char_digit by (apply N.mod_lt; lia).
    + split; [done|]. intros _. apply H2. by apply N.neq_0_lt_0.
Qed.

Lemma pretty_pos_digits n :
  0 < n → all_chars Str.isdigit (pretty n) = true ∧ pretty n ≠ "".
Proof.
  intros Hn. destruct n as [|p|p]; try lia.
  unfold pretty, pretty_Z, pretty, pretty_positive, pretty, pretty_N.
  destruct (decide (N.pos p = 0)%N); [done|].
  destruct (pretty_N_go_digits (N.pos p) "") as [H1 H2]; [done|].
  split; [done|]. apply H2. lia.
Qed.

(** ** The slug of a name followed by a number *)

Lemma digit_not_dash c : Str.isdigit c = true → is_dash c = false.
Proof. each_byte c; intros H; try discriminate H; done. Qed.

Lemma digit_slug_map c : Str.isdigit c = true → slug_map c = c.
Proof. each_byte c; intros H; try discriminate H; done. Qed.

Lemma map_digits s :
  all_chars Str.isdigit s = true → Str.map slug_map s = s.
Proof.
  induction s as [|c s IH]; [done|]. cbn [all_chars Str.map].
  intros [Hc Hs]%andb_true_iff. by rewrite digit_slug_map, IH.
Qed.

Lemma lstrip_app p t x :
  Str.lstrip p (t +:+ x)
  = match Str.lstrip p t with
    | EmptyString => Str.lstrip p x
    | t' => t' +:+ x
    end.
Proof.
  induction t as [|c t IH]; [done|].
  rewrite app_cons. cbn [Str.lstrip]. by destruct (p c).
Qed.

Lemma rstrip_keep p s c :
  last_char s = Some c → p c = false → Str.rstrip p s = s.
Proof.
  intros Hlast Hc. induction s as [|a s IH]; [done|].
  cbn [Str.rstrip]. destruct s as [|b s].
  - cbn in *. injection Hlast as ->. by rewrite Hc.
  - rewrite IH by done. done.
Qed.

Lemma last_char_app s c r :
  last_char (s +:+ String c r) = last_char (String c r).
Proof.
  induction s as [|a s IH]; [done|]. rewrite app_cons.
  cbn [last_char]. rewrite IH.
  by destruct (s +:+ String c r) eqn:E; [destruct s; discriminate E|].
Qed.

Lemma last_char_snoc s c : last_char (s +:+ String c "") = Some c.
Proof. by rewrite last_char_app. Qed.

Lemma replace_dashes_digits s :
  all_chars Str.isdigit s = true → Str.replace_dashes s = s.
Proof.
  induction s as [|c|c d s IH1 IH2] using string_ind2; [done| |].
  - intros _. apply replace_dashes_one.
  - rewrite replace_dashes_cons. cbn [all_chars].
    intros [Hc Hds]%andb_true_iff.
    apply digit_not_dash in Hc as Hc'. unfold is_dash in Hc'.
    rewrite Ascii.eqb_sym in Hc'. rewrite Hc'. cbn [andb].
    by rewrite IH2.
Qed.

Lemma replace_dashes_app w dg :
  all_chars Str.isdigit dg = true →
  Str.replace_dashes (w +:+ dg) = Str.replace_dashes w +:+ dg.
Proof.
  intros Hdg.
  induction w as [|c|c d w IH1 IH2] using string_ind2.
  - rewrite !app_nil_l. by apply replace_dashes_digits.
  - rewrite replace_dashes_one, !app_cons, !app_nil_l.
    destruct dg as [|d dg]; [apply replace_dashes_one|].
    rewrite replace_dashes_cons.
    cbn [all_chars] in Hdg. apply andb_true_iff in Hdg as [Hd Hdg'].
    apply digit_not_dash in Hd as Hd'. unfold is_dash in Hd'.
    rewrite Ascii.eqb_sym in Hd'. rewrite Hd', andb_false_r.
    rewrite replace_dashes_digits; [done|].
    cbn [all_chars]. by rewrite Hd, Hdg'.
  - rewrite !app_cons, !replace_dashes_cons.
    destruct (Ascii.eqb c "-" && Ascii.eqb d "-").
    + by rewrite app_cons, IH1.
    + rewrite app_cons. rewrite <- app_cons. by rewrite IH2.
Qed.

Lemma replace_dashes_empty s : Str.replace_dashes s = "" → s = "".
Proof.
  destruct s as [|c [|d s]]; [done| |].
  - by rewrite replace_dashes_one.
  - rewrite replace_dashes_cons. by destruct (_ && _).
Qed.

Lemma last_char_cons c s : s ≠ "" → last_char (String c s) = last_char s.
Proof. by destruct s. Qed.

Lemma last_char_replace_dashes s :
  last_char (Str.replace_dashes s) = last_char s.
Proof.
  induction s as [|c|c d s IH1 IH2] using string_ind2; [done| |].
  - by rewrite replace_dashes_one.
  - rewrite replace_dashes_cons.
    rewrite (last_char_cons c (String d s)) by done.
    destruct (Ascii.eqb c "-" && Ascii.eqb d "-") eqn:Hcd.
    + apply andb_true_iff in Hcd as [_ ->%Ascii.eqb_eq].
      destruct s as [|e s]; [done|].
      rewrite (last_char_cons "-" (String e s)) by done.
      rewrite last_char_cons; [done|].
      intros E. by apply replace_dashes_empty in E.
    + rewrite last_char_cons; [done|].
      intros E. by apply replace_dashes_empty in E.
Qed.

Lemma slug_numbered name dg :
  all_chars Str.isdigit dg = true → dg ≠ "" →
  ∃ r, SendDaily.slug (name +:+ "-" +:+ dg) = r +:+ dg ∧ headed r.
Proof.
  intros Hdg Hne. rewrite slug_unfold.
  rewrite map_app, (map_app _ "-" dg), (map_digits dg) by done.
  change (Str.map slug_map "-") with "-".
  assert (Hlast : ∃ c, last_char dg = Some c ∧ Str.isdigit c = true).
  { revert Hdg Hne. clear.
    induction dg as [|c dg IH]; [done|]. cbn [all_chars].
    intros [Hc Hs]%andb_true_iff _. destruct dg as [|d dg]; [by exists c|].
    rewrite last_char_cons by done. by apply IH. }
  destruct Hlast as (c & Hc & Hcd).
  assert (Hw : ∃ w, Str.strip_char "-" (Str.map slug_map name +:+ "-" +:+ dg)
                    = w +:+ dg ∧ headed w).
  { unfold Str.strip_char. rewrite lstrip_app.
    destruct (Str.lstrip (Ascii.eqb "-") (Str.map slug_map name))
      as [|a t'] eqn:Ht.
    - exists "". split; [|by left]. rewrite app_nil_l.
      destruct dg as [|d dg]; [done|].
      change ("-" +:+ String d dg) with (String "-" (String d dg)).
      cbn [Str.lstrip]. change (Ascii.eqb "-" "-") with true. cbn iota.
      cbn [all_chars] in Hdg. apply andb_true_iff in Hdg as [Hd _].
      apply digit_not_dash in Hd as Hd'. unfold is_dash in Hd'.
      cbn [Str.lstrip]. rewrite Hd'.
      apply (rstrip_keep _ _ c); [done|]. by apply digit_not_dash.
    - exists (String a t' +:+ "-"). split; [|right; apply last_char_snoc].
      rewrite app_assoc_string.
      apply (rstrip_keep _ _ c); [|by apply digit_not_dash].
      destruct dg as [|d dg]; [done|].
      rewrite <- app_assoc_string. by rewrite last_char_app. }
  destruct Hw as (w & -> & Hw).
  exists (Str.replace_dashes w). split; [by apply replace_dashes_app|].
  destruct Hw as [->|Hw]; [by left|]. right.
  by rewrite last_char_replace_dashes.
Qed.

Lemma digits_no_dash dg :
  all_chars Str.isdigit dg = true → Str.mem "-" dg = false.
Proof.
  intros H. eapply mem_false_of_all; [exact H | reflexivity].
Qed.

Lemma last_char_mem r c : last_char r = Some c → Str.mem c r = true.
Proof.
  induction r as [|a r IH]; [done|]. destruct r as [|b r].
  - intros [= ->]. cbn. by rewrite Ascii.eqb_refl.
  - rewrite last_char_cons by done. intros H.
    change (Str.mem c (String a (String b r)))
      with (Ascii.eqb c a || Str.mem c (String b r)).
    rewrite (IH H). apply orb_true_r.
Qed.

Lemma after_dash_headed r dg :
  headed r → all_chars Str.isdigit dg = true → after_dash (r +:+ dg) = dg.
Proof.
  intros Hr Hdg. pose proof (digits_no_dash dg Hdg) as Hno.
  induction r as [|c r IH].
  - rewrite app_nil_l. destruct dg as [|d dg]; [done|].
    cbn [after_dash]. cbn [Str.mem] in Hno.
    apply orb_false_elim in Hno as [Hd Hno]. rewrite Hno.
    unfold is_dash. by rewrite Hd.
  - destruct Hr as [|Hr]; [done|]. rewrite app_cons. cbn [after_dash].
    destruct r as [|b r].
    + injection Hr as ->. rewrite app_nil_l, Hno. done.
    + rewrite last_char_cons in Hr by done.
      rewrite mem_app, (last_char_mem _ _ Hr). cbn [orb].
      apply IH. by right.
Qed.

Lemma numbered_slug_inj name1 name2 dg1 dg2 :
  all_chars Str.isdigit dg1 = true → dg1 ≠ "" →
  all_chars Str.isdigit dg2 = true → dg2 ≠ "" →
  SendDaily.slug (name1 +:+ "-" +:+ dg1) = SendDaily.slug (name2 +:+ "-" +:+ dg2) →
  dg1 = dg2.
Proof.
  intros H1 N1 H2 N2 Heq.
  destruct (slug_numbered name1 dg1) as (r1 & E1 & R1); [done..|].
  destruct (slug_numbered name2 dg2) as (r2 & E2 & R2); [done..|].
  rewrite E1, E2 in Heq. apply (f_equal after_dash) in Heq.
  by rewrite !after_dash_headed in Heq.
Qed.

Lemma made_id_inj name1 name2 i j :
  made_id name1 i = made_id name2 j → i = j.
Proof.
  unfold made_id. rewrite !plans_slug_eq. intros H.
  destruct (pretty_pos_digits (Z.of_nat i + 1)) as [Hi Ni]; [lia|].
  destruct (pretty_pos_digits (Z.of_nat j + 1)) as [Hj Nj]; [lia|].
  apply numbered_slug_inj in H; [|done..].
  apply (inj pretty) in H. lia.
Qed.

Lemma made_id_nonempty name i : made_id name i ≠ "".
Proof.
  unfold made_id. rewrite plans_slug_eq.
  destruct (pretty_pos_digits (Z.of_nat i + 1)) as [Hi Ni]; [lia|].
  destruct (slug_numbered name (pretty (Z.of_nat i + 1))) as (r & -> & _);
    [done..|].
  intros H. apply (f_equal String.length) in H.
  rewrite length_app_string in H.
  destruct (pretty (Z.of_nat i + 1)); [done|]. cbn in H. lia.
Qed.

Lemma normalize_ex_id e i :
  ∃ s, ex_id (Plans.normalize_ex e i) = Some s ∧ s ≠ ""
       ∧ (no_id e → ∃ name, s = made_id name i)
       ∧ (∀ x, raw_id e = Some x → x ≠ "" → s = x).
Proof.
  pose (name := Str.strip
          (or_else (raw_name e)
             (or_else (raw_exercise_key e)
                ("Exercise " +:+ pretty (Z.of_nat i + 1))))).
  exists (or_else (raw_id e) (made_id name i)). split; [reflexivity|].
  unfold no_id. destruct (raw_id e) as [x|]; cbn [or_else].
  - destruct (String.eqb_spec x "") as [->|Hx].
    + split; [apply made_id_nonempty|]. split; [by eexists|].
      by intros ? [= <-].
    + split; [done|]. split; [intros [|[= ->]]; done|]. by intros ? [= <-].
  - split; [apply made_id_nonempty|]. split; [by eexists|]. done.
Qed.

(** X18. Every normalized exercise has an id, and ids made up within one
    list are pairwise different. *)
Theorem normalized_ids (raw : list raw_exercise) :
  let day := imap (λ i e, Plans.normalize_ex e i) raw in
  length day = length raw
  ∧ Forall (λ x, ∃ s, ex_id x = Some s ∧ s ≠ "") day
  ∧ (Forall no_id raw → NoDup (ex_id <$> day)).
Proof.
  cbn zeta. split; [apply length_imap|]. split.
  - apply Forall_lookup. intros k x Hk.
    rewrite list_lookup_imap in Hk.
    destruct (raw !! k) as [e|]; [|done]. injection Hk as <-.
    destruct (normalize_ex_id e k) as (s & Hs & Hne & _). by exists s.
  - intros Hraw. apply NoDup_alt. intros i j o Hi Hj.
    rewrite list_lookup_fmap, list_lookup_imap in Hi, Hj.
    destruct (raw !! i) as [e1|] eqn:E1; [|done].
    destruct (raw !! j) as [e2|] eqn:E2; [|done].
    change (Some (ex_id (Plans.normalize_ex e1 i)) = Some o) in Hi.
    change (Some (ex_id (Plans.normalize_ex e2 j)) = Some o) in Hj.
    destruct (normalize_ex_id e1 i) as (s1 & Hs1 & _ & Hm1 & _).
    destruct (normalize_ex_id e2 j) as (s2 & Hs2 & _ & Hm2 & _).
    destruct Hm1 as [n1 ->];
      [by eapply Forall_lookup_1 in Hraw; [|exact E1]|].
    destruct Hm2 as [n2 ->];
      [by eapply Forall_lookup_1 in Hraw; [|exact E2]|].
    eapply (made_id_inj n1 n2). congruence.
Qed.

Lemma normalized_ids_witness :
  let raw := [ mkraw None (Some "Curl") None (Some 3) None;
               mkraw (Some "") (Some "Curl") None None None;
               mkraw None None None None (Some "10") ] in
  Forall no_id raw
  ∧ NoDup (ex_id <$> imap (λ i e, Plans.normalize_ex e i) raw).
Proof.
  intros raw.
  assert (H : Forall no_id raw).
  { repeat constructor; by (left + right). }
  exact (conj H (proj2 (proj2 (normalized_ids raw)) H)).
Defined.

(** ** The shape of a slug *)

Lemma lstrip_first p s c :
  first_char (Str.lstrip p s) = Some c → p c = false.
Proof.
  induction s as [|a s IH]; [done|]. cbn [Str.lstrip].
  destruct (p a) eqn:Ha; [done|]. by intros [= <-].
Qed.

Lemma rstrip_first p s c :
  first_char (Str.rstrip p s) = Some c → first_char s = Some c.
Proof.
  destruct s as [|a s]; [done|]. cbn [Str.rstrip first_char].
  destruct (Str.rstrip p s); [by destruct (p a)|done].
Qed.

Lemma rstrip_last p s c :
  last_char (Str.rstrip p s) = Some c → p c = false.
Proof.
  induction s as [|a s IH]; [done|]. cbn [Str.rstrip].
  destruct (Str.rstrip p s) as [|b r] eqn:E.
  - destruct (p a) eqn:Ha; [done|]. by intros [= <-].
  - rewrite last_char_cons by done. done.
Qed.

Lemma first_char_replace_dashes s :
  first_char (Str.replace_dashes s) = first_char s.
Proof.
  destruct s as [|c [|d s]]; [done| |].
  - by rewrite replace_dashes_one.
  - rewrite replace_dashes_cons.
    destruct (Ascii.eqb c "-" && Ascii.eqb d "-") eqn:Hcd; [|done].
    by apply andb_true_iff in Hcd as [->%Ascii.eqb_eq _].
Qed.

(** X19. A slug is made of lower-case letters, digits and dashes, and has
    no dash at either end. *)
Theorem slug_shape s :
  is_ascii s = true →
  Plans.slug s = SendDaily.slug s
  ∧ all_chars slug_char (SendDaily.slug s) = true
  ∧ first_char (SendDaily.slug s) ≠ Some "-"%char
  ∧ last_char (SendDaily.slug s) ≠ Some "-"%char.
Proof.
  intros _. split; [reflexivity|]. split; [apply slug_chars|].
  rewrite slug_unfold, first_char_replace_dashes, last_char_replace_dashes.
  unfold Str.strip_char. split.
  - intros H%rstrip_first%lstrip_first. done.
  - intros H%rstrip_last. done.
Qed.

Lemma slug_shape_witness :
  is_ascii "Leg + Abs Day" = true
  ∧ SendDaily.slug "Leg + Abs Day" = "leg--abs-day"
  ∧ Plans.slug "Leg + Abs Day" = SendDaily.slug "Leg + Abs Day"
  ∧ all_chars slug_char (SendDaily.slug "Leg + Abs Day") = true
  ∧ first_char (SendDaily.slug "Leg + Abs Day") ≠ Some "-"%char
  ∧ last_char (SendDaily.slug "Leg + Abs Day") ≠ Some "-"%char.
Proof.
  assert (H : is_ascii "Leg + Abs Day" = true) by reflexivity.
  exact (conj H (conj eq_refl (slug_shape "Leg + Abs Day" H))).
Defined.

(** ** [pick_plan_and_day] *)

Lemma plans_index_in_range username today yd total st :
  Calendar.yesterday_iso today = Ok yd → 0 < total →
  ∃ i st', Plans.pick_today_index username today total st = (Ok i, st')
           ∧ 0 ≤ i < total.
Proof.
  intros Hyd Hpos.
  destruct (plans_outcome username today total st)
    as [(e & He & _) | (i & Hi & Hb)]; [congruence|].
  exists i. eexists. split; [exact Hi | lia].
Qed.

(** X20. With a user plan, the day the scheduler picks is a day of the
    plan. *)
Theorem plan_day_in_range fs username today yd up d ds st :
  Plans.load_user_plan fs username = Some up →
  up_days up = Some (d :: ds) →
  Calendar.yesterday_iso today = Ok yd →
  ∃ i st' day,
    Plans.pick_today_index username today (Z.of_nat (length (d :: ds))) st
    = (Ok i, st')
    ∧ (d :: ds) !! Z.to_nat i = Some day
    ∧ Plans.pick_plan_and_day fs username today st
      = (Ok (Some up, Plans.normalize_user_day day i), st').
Proof.
  intros Hup Hdays Hyd.
  destruct (plans_index_in_range username today yd
              (Z.of_nat (length (d :: ds))) st)
    as (i & st' & Hi & Hb); [done | cbn [length]; lia |].
  destruct (lookup_lt_is_Some_2 (d :: ds) (Z.to_nat i)) as [day Hday]; [lia|].
  exists i, st', day. split; [done|]. split; [done|].
  unfold Plans.pick_plan_and_day. cbn zeta. rewrite Hup.
  unfold Plans.plan_truthy. rewrite Hdays. cbn [bool_decide orb get].
  rewrite bool_decide_eq_true_2 by done. cbn [orb].
  rewrite Hdays. cbn [get].
  unfold bind, ret. by rewrite Hi, Hday.
Qed.

Lemma plan_day_in_range_witness :
  let day1 := mkrawday (Some "Arms") None None in
  let day2 := mkrawday None (Some "Legs") None in
  let up := mkplan (Some [day1; day2]) false in
  let fs := mkplanfiles {[ "ana" := up ]} ∅ in
  let st : schedules :=
    {[ "ana" := mksched (Some 4) (Some "COMPLETED") (Some "2024-03-05") ]} in
  ∃ i st' day,
    Plans.pick_today_index "ana" "2024-03-06" 2 st = (Ok i, st')
    ∧ [day1; day2] !! Z.to_nat i = Some day
    ∧ Plans.pick_plan_and_day fs "ana" "2024-03-06" st
      = (Ok (Some up, Plans.normalize_user_day day i), st').
Proof.
  intros day1 day2 up fs st.
  refine (plan_day_in_range fs "ana" "2024-03-06" "2024-03-05" up day1 [day2]
            st _ _ _); reflexivity.
Defined.

(** X21. A plan without days is answered with a placeholder, and the
    scheduler is not run. *)
Theorem plan_without_days fs username today up st :
  Plans.load_user_plan fs username = Some up →
  Plans.plan_truthy up = true →
  up_days up = None ∨ up_days up = Some [] →
  Plans.pick_plan_and_day fs username today st
  = (Ok (Some up, mksplit "No days configured" []), st).
Proof.
  intros Hup Htruthy Hdays.
  unfold Plans.pick_plan_and_day. cbn zeta. rewrite Hup, Htruthy.
  by destruct Hdays as [-> | ->].
Qed.

Lemma plan_without_days_witness :
  let up := mkplan (Some []) false in
  let fs := mkplanfiles {[ "ana" := up ]} ∅ in
  let st : schedules :=
    {[ "ana" := mksched (Some 4) (Some "COMPLETED") (Some "2024-03-05") ]} in
  Plans.pick_plan_and_day fs "ana" "not a date" st
  = (Ok (Some up, mksplit "No days configured" []), st).
Proof.
  intros up fs st.
  refine (plan_without_days fs "ana" "not a date" up st _ _ _);
    [reflexivity | reflexivity | by right].
Defined.

(** X22. Without a user plan the library rotates over its three default
    titles and normalizes the split file of the title picked. *)
Theorem library_rotation_day fs username today yd st :
  Plans.load_user_plan fs username = None →
  Calendar.yesterday_iso today = Ok yd →
  (∀ t, t ∈ Plans.ROTATION →
        is_Some (split_files fs !! (Plans.slug t +:+ ".json"))) →
  ∃ i st' t data,
    Plans.pick_today_index username today 3 st = (Ok i, st')
    ∧ Plans.ROTATION !! Z.to_nat i = Some t
    ∧ split_files fs !! (Plans.slug t +:+ ".json") = Some data
    ∧ Plans.pick_plan_and_day fs username today st
      = (Ok (None,
             mksplit (get (rs_title data) t)
               (imap (λ k e, Plans.normalize_ex e k)
                     (get (rs_exercises data) []))), st').
Proof.
  intros Hup Hyd Hfiles.
  destruct (plans_index_in_range username today yd 3 st)
    as (i & st' & Hi & Hb); [done | lia |].
  destruct (lookup_lt_is_Some_2 Plans.ROTATION (Z.to_nat i)) as [t Ht];
    [cbn; lia|].
  destruct (Hfiles t) as [data Hdata]; [by eapply list_elem_of_lookup_2|].
  exists i, st', t, data. repeat (split; [done|]).
  unfold Plans.pick_plan_and_day. cbn zeta. rewrite Hup.
  change (Z.of_nat (length Plans.ROTATION)) with 3.
  unfold bind, lift. rewrite Hi, Ht.
  unfold Plans.load_split_by_title. by rewrite Hdata.
Qed.

Lemma library_rotation_day_witness :
  let curl := mkraw None (Some " Curl ") None (Some 3) None in
  let fs := mkplanfiles ∅
              {[ "push-day.json" := mkrawsplit None None;
                 "pull-day.json" := mkrawsplit (Some "Pull") (Some [curl]);
                 "leg-day.json" := mkrawsplit None None ]} in
  ∃ i st' t data,
    Plans.pick_today_index "ana" "2024-03-06" 3 ∅ = (Ok i, st')
    ∧ Plans.ROTATION !! Z.to_nat i = Some t
    ∧ split_files fs !! (Plans.slug t +:+ ".json") = Some data
    ∧ Plans.pick_plan_and_day fs "ana" "2024-03-06" ∅
      = (Ok (None,
             mksplit (get (rs_title data) t)
               (imap (λ k e, Plans.normalize_ex e k)
                     (get (rs_exercises data) []))), st').
Proof.
  intros curl fs.
  refine (library_rotation_day fs "ana" "2024-03-06" "2024-03-05" ∅ _ _ _);
    try reflexivity.
  intros t Ht. apply list_elem_of_In in Ht. cbn in Ht.
  destruct Ht as [<-|[<-|[<-|[]]]]; by eexists.
Defined.
